(** * Dashboard de Vendedores: the data path of [app.py]

    The script loads [vendedores.csv] with pandas, cleans it ([load_data]),
    filters the table by region, and derives KPI metrics, a per-region
    aggregate and a top-10 ranking from the filtered view.

    Embedding.
    - A pandas [DataFrame] is a list of column labels and a list of rows; a
      row is a list of cells read by position (a short row reads as
      missing).  The row labels of the index are not modelled: the script
      only ever reads a row back through the label [idxmax] gave it.
    - A cell is a text (object dtype) or a binary64 number whose NaN is the
      missing value, as in pandas before its string dtype.  Numbers are the
      IEEE 754 binary64 values of [SpecFloat] (precision 53, [emax] 1024),
      so sums and means round; a column pandas holds as [int64] is carried
      as the binary64 numbers of the same values.
    - A sum accumulates from the first row to the last.  pandas' group sum
      carries a compensation term besides ([compensated_sum]); where the
      difference matters the examples are checked under both.
    - Exceptions are an explicit [result]; [load_data] is the function that
      catches them.  Only exceptions under [Exception] are considered.
    - What pandas reads from a text cell and what Python prints for a
      number come from a [Builtins] instance; the properties hold for every
      instance and the examples run on [Sample.py].
    - Strings are byte strings; [strip] and [upper] act on ASCII.
    - The widgets are not modelled: their option lists are values, the
      user's selections are arguments, and what the detail tab draws from the
      row of the chosen seller is left out. *)

From Stdlib Require Import List String Ascii ZArith Bool Arith Lia.
From Stdlib Require Import Permutation Sorted.
From Stdlib Require Import Floats.SpecFloat.
From Stdlib Require DecimalString.
Import ListNotations.
Local Open Scope string_scope.

(** ** binary64 numbers *)

Module Float64.

Definition t := spec_float.

Definition prec : Z := 53.
Definition emax : Z := 1024.

Definition nan : t := S754_nan.
Definition zero : t := S754_zero false.

Definition add : t -> t -> t := SFadd prec emax.
Definition div : t -> t -> t := SFdiv prec emax.

(** The binary64 number nearest to [m * 2^e] (ties to even). *)
Definition of_scaled (m e : Z) : t := binary_normalize prec emax m e false.
Definition of_Z (z : Z) : t := of_scaled z 0.
Definition of_nat (n : nat) : t := of_Z (Z.of_nat n).

Definition is_nan (x : t) : bool :=
  match x with S754_nan => true | _ => false end.

Definition leb : t -> t -> bool := SFleb.
Definition ltb : t -> t -> bool := SFltb.
Definition eqb : t -> t -> bool := SFeqb.

End Float64.

Definition float64 : Type := Float64.t.

(** ** Python and pandas primitives outside the script *)

(** [to_float s] is the number [pd.to_numeric] reads from the text [s], if it
    reads one; [float_str x] is [str(x)] for a number [x] that is not NaN;
    [float_format x spec] is [format(x, spec)], the text an f-string field
    [{x:spec}] produces. *)
Class Builtins := {
  to_float : string -> option float64;
  float_str : float64 -> string;
  float_format : float64 -> string -> string
}.

(** ** Exceptions *)

Inductive exn :=
| FileNotFoundError
| Exception (msg : string).

Inductive result (A : Type) :=
| Ok (a : A)
| Raise (e : exn).

Arguments Ok {A} a.
Arguments Raise {A} e.

Definition bind {A B : Type} (m : result A) (k : A -> result B) : result B :=
  match m with
  | Ok a => k a
  | Raise e => Raise e
  end.

Notation "x <- m ;; k" := (bind m (fun x => k))
  (at level 61, m at next level, right associativity).

(** ** Strings *)

(** ASCII white space as [str.strip] sees it. *)
Definition is_space (c : ascii) : bool :=
  let n := nat_of_ascii c in
  (((9 <=? n) && (n <=? 13)) || ((28 <=? n) && (n <=? 32)))%nat.

Fixpoint lstrip (s : string) : string :=
  match s with
  | EmptyString => EmptyString
  | String c s' => if is_space c then lstrip s' else s
  end.

Fixpoint rstrip (s : string) : string :=
  match s with
  | EmptyString => EmptyString
  | String c s' =>
      match rstrip s' with
      | EmptyString => if is_space c then EmptyString else String c EmptyString
      | r => String c r
      end
  end.

Definition strip (s : string) : string := rstrip (lstrip s).

Definition upper_ascii (c : ascii) : ascii :=
  let n := nat_of_ascii c in
  if ((97 <=? n) && (n <=? 122))%nat then ascii_of_nat (n - 32) else c.

Fixpoint map_string (f : ascii -> ascii) (s : string) : string :=
  match s with
  | EmptyString => EmptyString
  | String c s' => String (f c) (map_string f s')
  end.

Definition upper (s : string) : string := map_string upper_ascii s.

(** [s.replace(' ', '_')]. *)
Definition replace_space (s : string) : string :=
  map_string (fun c => if Ascii.eqb c " "%char then "_"%char else c) s.

(** ** Cells, series and frames *)

Inductive cell :=
| Str (s : string)
| Num (x : float64).

Definition NaN : cell := Num Float64.nan.

Definition isna (c : cell) : bool :=
  match c with
  | Num x => Float64.is_nan x
  | Str _ => false
  end.

Definition notna (c : cell) : bool := negb (isna c).

Definition series := list cell.
Definition row := list cell.

Record DataFrame := {
  columns : list string;
  rows : list row
}.

(** [pd.DataFrame()]. *)
Definition empty_frame : DataFrame := {| columns := []; rows := [] |}.

(** [df.empty]: some axis has length 0. *)
Definition empty (df : DataFrame) : bool :=
  match columns df, rows df with
  | [], _ | _, [] => true
  | _, _ => false
  end.

(** A cell of a row by position; a short row reads as missing. *)
Definition cell_at (i : nat) (r : row) : cell := nth i r NaN.

Fixpoint set_cell (i : nat) (v : cell) (r : row) : row :=
  match i, r with
  | O, [] => [v]
  | O, _ :: r' => v :: r'
  | S i', [] => NaN :: set_cell i' v []
  | S i', c :: r' => c :: set_cell i' v r'
  end.

(** The positions of a label among the column labels. *)
Fixpoint positions_from (k : nat) (name : string) (cols : list string) : list nat :=
  match cols with
  | [] => []
  | c :: cols' =>
      if String.eqb c name then k :: positions_from (S k) name cols'
      else positions_from (S k) name cols'
  end.

Definition positions (name : string) (cols : list string) : list nat :=
  positions_from 0 name cols.

(** [str(KeyError(name))]. *)
Definition key_error (name : string) : exn := Exception ("'" ++ name ++ "'").

(** A label carried by several columns selects a frame, and each use the
    script makes of the selection then fails. *)
Definition not_a_series (name : string) : exn :=
  Exception ("label " ++ name ++ " does not select a Series").

(** The position of the one column labelled [name]. *)
Definition find_column (cols : list string) (name : string) : result nat :=
  match positions name cols with
  | [] => Raise (key_error name)
  | [i] => Ok i
  | _ => Raise (not_a_series name)
  end.

Definition locate (df : DataFrame) (name : string) : result nat :=
  find_column (columns df) name.

(** [df[name]]. *)
Definition getitem (df : DataFrame) (name : string) : result series :=
  i <- locate df name ;;
  Ok (map (cell_at i) (rows df)).

(** [r[name]] for a row [r] of [df]. *)
Definition row_getitem (df : DataFrame) (r : row) (name : string) : result cell :=
  i <- locate df name ;;
  Ok (cell_at i r).

Fixpoint set_cells (ps : list nat) (v : cell) (r : row) : row :=
  match ps with
  | [] => r
  | i :: ps' => set_cells ps' v (set_cell i v r)
  end.

Fixpoint map2 {A B C : Type} (f : A -> B -> C) (l : list A) (l' : list B) : list C :=
  match l, l' with
  | a :: t, b :: t' => f a b :: map2 f t t'
  | _, _ => []
  end.

(** [df[name] = s]: overwrite the column(s) labelled [name], or append a new
    last column. *)
Definition setitem (df : DataFrame) (name : string) (s : series) : DataFrame :=
  match positions name (columns df) with
  | [] =>
      {| columns := (columns df ++ [name])%list;
         rows := map2 (fun r v => set_cell (List.length (columns df)) v r) (rows df) s |}
  | ps =>
      {| columns := columns df;
         rows := map2 (fun r v => set_cells ps v r) (rows df) s |}
  end.

(** ** [load_data] *)

Definition VENDEDORES_FILE : string := "vendedores.csv".

(** Line 26: [col.strip().upper().replace(' ', '_')]. *)
Definition clean_column (col : string) : string :=
  replace_space (upper (strip col)).

(** [df.columns = [clean_column(col) for col in df.columns]]. *)
Definition clean_columns (df : DataFrame) : DataFrame :=
  {| columns := map clean_column (columns df); rows := rows df |}.

Section Load.
Context {py : Builtins}.

(** [pd.to_numeric(s, errors='coerce')], cell by cell. *)
Definition to_numeric_cell (c : cell) : cell :=
  match c with
  | Num x => Num x
  | Str s =>
      match to_float s with
      | Some x => Num x
      | None => NaN
      end
  end.

Definition to_numeric (s : series) : series := map to_numeric_cell s.

(** [s.astype(str)], cell by cell. *)
Definition astype_str (c : cell) : string :=
  match c with
  | Str s => s
  | Num x => if Float64.is_nan x then "nan" else float_str x
  end.

(** [df[name] = pd.to_numeric(df[name], errors='coerce')]. *)
Definition coerce_column (df : DataFrame) (name : string) : result DataFrame :=
  s <- getitem df name ;;
  Ok (setitem df name (to_numeric s)).

(** [a.astype(str) + ' ' + b.astype(str)]. *)
Definition full_name (a b : cell) : cell :=
  Str (astype_str a ++ " " ++ astype_str b).

(** [df.dropna(subset=labels)]: the rows with no missing value under any of
    the labels. *)
Fixpoint locate_all (df : DataFrame) (labels : list string) : result (list nat) :=
  match labels with
  | [] => Ok []
  | l :: labels' =>
      i <- locate df l ;;
      ixs <- locate_all df labels' ;;
      Ok (i :: ixs)
  end.

Definition complete (ixs : list nat) (r : row) : bool :=
  forallb (fun i => notna (cell_at i r)) ixs.

Definition dropna (subset : list string) (df : DataFrame) : result DataFrame :=
  ixs <- locate_all df subset ;;
  Ok {| columns := columns df; rows := filter (complete ixs) (rows df) |}.

Definition key_metrics : list string :=
  ["UNIDADES_VENDIDAS"; "VENTAS_TOTALES"; "PORCENTAJE_DE_VENTAS"].

(** The body of the [try] block; [csv] is the outcome of
    [pd.read_csv(VENDEDORES_FILE, encoding='utf-8')]. *)
Definition load_data_try (csv : result DataFrame) : result DataFrame :=
  df <- csv ;;
  let df := clean_columns df in
  df <- coerce_column df "UNIDADES_VENDIDAS" ;;
  df <- coerce_column df "VENTAS_TOTALES" ;;
  df <- coerce_column df "PORCENTAJE_DE_VENTAS" ;;
  df <- coerce_column df "SALARIO" ;;
  nombre <- getitem df "NOMBRE" ;;
  apellido <- getitem df "APELLIDO" ;;
  let df := setitem df "VENDEDOR" (map2 full_name nombre apellido) in
  dropna key_metrics df.

(** [load_data]: the messages passed to [st.error], and the frame returned. *)
Definition load_data (csv : result DataFrame) : list string * DataFrame :=
  match load_data_try csv with
  | Ok df => ([], df)
  | Raise FileNotFoundError =>
      (["¡Error! No se encontró el archivo de datos: " ++ VENDEDORES_FILE],
       empty_frame)
  | Raise (Exception e) =>
      (["Ocurrió un error al cargar o procesar los datos: " ++ e], empty_frame)
  end.

End Load.

(** ** The view layer: the dashboard's derived values *)

(** Equality of cells as [in] and [isin] decide it. *)
Definition cell_eqb (a b : cell) : bool :=
  match a, b with
  | Str s, Str s' => String.eqb s s'
  | Num x, Num y =>
      Float64.eqb x y || (Float64.is_nan x && Float64.is_nan y)
  | _, _ => false
  end.

(** [c in values], and [s.isin(values)] cell by cell. *)
Definition isin (c : cell) (values : list cell) : bool :=
  existsb (cell_eqb c) values.

(** Boolean indexing [x[mask]] of the rows of a frame or of a series. *)
Fixpoint select {A : Type} (xs : list A) (mask : list bool) : list A :=
  match xs, mask with
  | x :: xs', b :: mask' =>
      if b then x :: select xs' mask' else select xs' mask'
  | _, _ => []
  end.

(** Lines 67-70; [selected_regions] is what the multiselect returned. *)
Definition df_filtered_region (df : DataFrame) (selected_regions : list cell)
  : result DataFrame :=
  if isin (Str "TODAS") selected_regions then
    Ok df
  else
    region <- getitem df "REGION" ;;
    Ok {| columns := columns df;
          rows := select (rows df)
                    (map (fun c => isin c selected_regions) region) |}.

(** *** Reductions *)

Definition type_error : exn :=
  Exception "unsupported operand type(s) for +: 'float' and 'str'".

(** The numbers of a series, missing values skipped ([skipna=True]); a text
    cell cannot enter a numeric reduction. *)
Fixpoint numeric_values (s : series) : result (list float64) :=
  match s with
  | [] => Ok []
  | Str _ :: _ => Raise type_error
  | Num x :: s' =>
      xs <- numeric_values s' ;;
      Ok (if Float64.is_nan x then xs else x :: xs)
  end.

(** Accumulation from the first value to the last, starting at 0.0. *)
Definition fsum (xs : list float64) : float64 :=
  fold_left Float64.add xs Float64.zero.



Definition fmean (xs : list float64) : float64 :=
  Float64.div (fsum xs) (Float64.of_nat (List.length xs)).

(** [s.sum()]. *)
Definition series_sum (s : series) : result float64 :=
  xs <- numeric_values s ;;
  Ok (fsum xs).

(** [s.mean()]. *)
Definition series_mean (s : series) : result float64 :=
  xs <- numeric_values s ;;
  Ok (fmean xs).

(** [s.idxmax()]: the place of the first greatest value, NaN skipped. *)
Fixpoint idxmax_from (k : nat) (best : option (nat * float64)) (s : series)
  : result (option (nat * float64)) :=
  match s with
  | [] => Ok best
  | Str _ :: _ => Raise type_error
  | Num x :: s' =>
      let best' :=
        if Float64.is_nan x then best
        else match best with
             | None => Some (k, x)
             | Some (_, b) => if Float64.ltb b x then Some (k, x) else best
             end in
      idxmax_from (S k) best' s'
  end.

Definition idxmax (s : series) : result nat :=
  best <- idxmax_from 0 None s ;;
  match best with
  | Some (k, _) => Ok k
  | None => Raise (Exception "attempt to get argmax of an empty sequence")
  end.

(** *** Summary metrics (lines 91-114) *)

Section View.
Context {py : Builtins}.

(** [f"{c:spec}"] for a value read from a frame. *)
Definition format_cell (c : cell) (spec : string) : result string :=
  match c with
  | Num x => Ok (float_format x spec)
  | Str _ => Raise (Exception "Unknown format code 'f' for object of type 'str'")
  end.

Definition total_ventas (view : DataFrame) : result float64 :=
  s <- getitem view "VENTAS_TOTALES" ;;
  series_sum s.

Definition total_unidades (view : DataFrame) : result float64 :=
  s <- getitem view "UNIDADES_VENDIDAS" ;;
  series_sum s.

(** A call [st.metric(label=..., value=..., delta=...)]. *)
Record metric := {
  label : string;
  value : cell;
  delta : option string
}.

(** Line 99. *)
Definition col1 (view : DataFrame) : result metric :=
  t <- total_ventas view ;;
  Ok {| label := "Ventas Totales Filtro (USD)";
        value := Str ("$" ++ float_format t ",.0f");
        delta := None |}.

(** Line 102. *)
Definition col2 (view : DataFrame) : result metric :=
  t <- total_unidades view ;;
  Ok {| label := "Unidades Totales Vendidas";
        value := Str (float_format t ",");
        delta := None |}.

(** Line 107. *)
Definition max_sales_row (view : DataFrame) : result row :=
  s <- getitem view "VENTAS_TOTALES" ;;
  i <- idxmax s ;;
  Ok (nth i (rows view) []).

(** Lines 106-114. *)
Definition col3 (view : DataFrame) : result metric :=
  if negb (empty view) then
    r <- max_sales_row view ;;
    vendedor <- row_getitem view r "VENDEDOR" ;;
    ventas <- row_getitem view r "VENTAS_TOTALES" ;;
    d <- format_cell ventas ",.0f" ;;
    Ok {| label := "Vendedor con Mayor Venta";
          value := vendedor;
          delta := Some ("$" ++ d) |}
  else
    Ok {| label := "Vendedor con Mayor Venta";
          value := Str "N/A";
          delta := Some "N/A" |}.

End View.

(** *** Aggregation by region (lines 120-124) *)

(** The order of cells of one kind; numbers sort before texts among group
    keys. *)
Definition cell_leb (a b : cell) : bool :=
  match a, b with
  | Num x, Num y => Float64.leb x y
  | Num _, Str _ => true
  | Str _, Num _ => false
  | Str s, Str s' => String.leb s s'
  end.

(** The distinct values of a series that are not missing, in order of first
    appearance. *)
Fixpoint unique_from (seen : list cell) (s : series) : list cell :=
  match s with
  | [] => []
  | c :: s' =>
      if isna c || isin c seen then unique_from seen s'
      else c :: unique_from (c :: seen) s'
  end.

Definition unique (s : series) : list cell := unique_from [] s.

Fixpoint insert_asc (k : cell) (ks : list cell) : list cell :=
  match ks with
  | [] => [k]
  | k' :: ks' => if cell_leb k k' then k :: ks else k' :: insert_asc k ks'
  end.

Definition sort_asc (ks : list cell) : list cell :=
  fold_right insert_asc [] ks.

(** The group keys of [groupby] ([sort=True], [dropna=True]): the distinct
    values that are not missing, in increasing order. *)
Definition group_keys (s : series) : list cell :=
  sort_asc (unique s).

Fixpoint traverse {A B : Type} (f : A -> result B) (l : list A) : result (list B) :=
  match l with
  | [] => Ok []
  | a :: l' =>
      b <- f a ;;
      bs <- traverse f l' ;;
      Ok (b :: bs)
  end.

(** The members of the group of key [k], read off a column. *)
Definition group (region : series) (k : cell) (s : series) : series :=
  select s (map (cell_eqb k) region).

Definition df_grouped_region (view : DataFrame) : result DataFrame :=
  region <- getitem view "REGION" ;;
  unidades <- getitem view "UNIDADES_VENDIDAS" ;;
  ventas <- getitem view "VENTAS_TOTALES" ;;
  porcentaje <- getitem view "PORCENTAJE_DE_VENTAS" ;;
  rs <- traverse
          (fun k =>
             u <- series_sum (group region k unidades) ;;
             v <- series_sum (group region k ventas) ;;
             p <- series_mean (group region k porcentaje) ;;
             Ok [k; Num u; Num v; Num p])
          (group_keys region) ;;
  Ok {| columns := ["REGION"; "Total_Unidades"; "Total_Ventas";
                    "Promedio_Porcentaje"];
        rows := rs |}.

(** *** Top sellers (line 142) *)

Fixpoint insert_desc (i : nat) (r : row) (l : list row) : list row :=
  match l with
  | [] => [r]
  | r' :: l' =>
      if cell_leb (cell_at i r') (cell_at i r) then r :: l
      else r' :: insert_desc i r l'
  end.

(** Decreasing order of the cells at position [i]; rows that compare equal
    stay as they were (the order [kind='quicksort'] gives them is the
    implementation's). *)
Definition sort_desc (i : nat) (rs : list row) : list row :=
  fold_right (insert_desc i) [] rs.

Definition is_num (c : cell) : bool :=
  match c with Num _ => true | Str _ => false end.

(** Numbers compare with numbers and texts with texts only. *)
Definition comparable (s : series) : bool :=
  forallb is_num s || forallb (fun c => negb (is_num c)) s.

(** [df.sort_values(by=name, ascending=False)]; missing values go last. *)
Definition sort_values_desc (df : DataFrame) (name : string) : result DataFrame :=
  i <- locate df name ;;
  let present := filter (fun r => notna (cell_at i r)) (rows df) in
  let missing := filter (fun r => isna (cell_at i r)) (rows df) in
  if comparable (map (cell_at i) present) then
    Ok {| columns := columns df;
          rows := (sort_desc i present ++ missing)%list |}
  else
    Raise (Exception "'<' not supported between instances of 'float' and 'str'").

(** [df.head(n)]. *)
Definition head (n : nat) (df : DataFrame) : DataFrame :=
  {| columns := columns df; rows := firstn n (rows df) |}.

Definition top_sellers (n : nat) (view : DataFrame) : result DataFrame :=
  sorted <- sort_values_desc view "PORCENTAJE_DE_VENTAS" ;;
  Ok (head n sorted).

Definition df_top_sellers (view : DataFrame) : result DataFrame :=
  top_sellers 10 view.

(** *** The page (lines 49-51 and 215-217) *)

Inductive screen :=
| Dashboard (df : DataFrame)
| ErrorDisplay (msg : string).

(** The messages [load_data] passed to [st.error], then what the script
    does with the frame: the dashboard, or the closing error display. *)
Definition main {py : Builtins} (csv : result DataFrame) : list string * screen :=
  let '(errors, df) := load_data csv in
  if negb (empty df) then (errors, Dashboard df)
  else
    (errors,
     ErrorDisplay "No se pudieron cargar los datos. Por favor, verifica el nombre del archivo 'vendedores.csv' y su contenido.").

(** ** A reference instance of the primitives

    Decimal integer literals are read; numbers are printed by their exact
    decimal expansion, which is what Python prints for whole numbers and
    short binary fractions of magnitude below 10^16; [",.0f"] rounds to the
    nearest whole number, ties to even. *)

Module Sample.

Definition read_literal (s : string) : option float64 :=
  match s with
  | "" | "-" => None
  | _ =>
      option_map (fun d => Float64.of_Z (Z.of_int d))
                 (DecimalString.NilEmpty.int_of_string s)
  end.

Definition digits (n : Z) : string :=
  DecimalString.NilZero.string_of_uint (N.to_uint (Z.to_N n)).

(** Thousands separators in a string of digits. *)
Fixpoint group3 (s : string) : string :=
  match s with
  | EmptyString => EmptyString
  | String c s' =>
      let n := String.length s' in
      String c (if ((0 <? n) && (n mod 3 =? 0))%nat then "," ++ group3 s'
                else group3 s')
  end.

Fixpoint zeros (n : nat) : string :=
  match n with
  | O => EmptyString
  | S n' => String "0" (zeros n')
  end.

(** Drop the zeros that end a string of digits. *)
Fixpoint rstrip0 (s : string) : string :=
  match s with
  | EmptyString => EmptyString
  | String c s' =>
      match rstrip0 s' with
      | EmptyString => if Ascii.eqb c "0" then EmptyString else String c EmptyString
      | r => String c r
      end
  end.

(** The whole part and the digits after the point of [m * 2^e]. *)
Definition expansion (m : positive) (e : Z) : string * string :=
  if (0 <=? e)%Z then (digits (Zpos m * 2 ^ e), "0")
  else
    let k := (- e)%Z in
    let d := (2 ^ k)%Z in
    let f := digits ((Zpos m mod d) * 5 ^ k) in
    let f := zeros (Z.to_nat k - String.length f) ++ f in
    (digits (Zpos m / d),
     match rstrip0 f with EmptyString => "0" | r => r end).

Definition sign (s : bool) : string := if s then "-" else "".

Definition render (grouped : bool) (x : float64) : string :=
  match x with
  | S754_nan => "nan"
  | S754_infinity s => sign s ++ "inf"
  | S754_zero s => sign s ++ "0.0"
  | S754_finite s m e =>
      let '(w, f) := expansion m e in
      sign s ++ (if grouped then group3 w else w) ++ "." ++ f
  end.

(** The whole number nearest to [m * 2^e], ties to even. *)
Definition nearest (m : positive) (e : Z) : Z :=
  if (0 <=? e)%Z then Zpos m * 2 ^ e
  else
    let d := (2 ^ (- e))%Z in
    let q := (Zpos m / d)%Z in
    let r := (Zpos m mod d)%Z in
    match (2 * r ?= d)%Z with
    | Lt => q
    | Gt => (q + 1)%Z
    | Eq => if Z.even q then q else (q + 1)%Z
    end.

Definition render_f0 (x : float64) : string :=
  match x with
  | S754_nan => "nan"
  | S754_infinity s => sign s ++ "inf"
  | S754_zero s => sign s ++ "0"
  | S754_finite s m e => sign s ++ group3 (digits (nearest m e))
  end.

Definition format (x : float64) (spec : string) : string :=
  if String.eqb spec ",.0f" then render_f0 x
  else render (String.eqb spec ",") x.

#[export] Instance py : Builtins := {|
  to_float := read_literal;
  float_str := render false;
  float_format := format
|}.

End Sample.


(** ** Row by row: what [load_data] does to one row of the file *)

Section RowWise.
Context {py : Builtins}.

(** The row after [df[name] = pd.to_numeric(df[name], errors='coerce')] for
    the column at position [i]. *)
Definition coerce_at (i : nat) (r : row) : row :=
  set_cell i (to_numeric_cell (cell_at i r)) r.

(** Where [df['VENDEDOR'] = ...] writes. *)
Definition vendedor_positions (cols : list string) : list nat :=
  match positions "VENDEDOR" cols with
  | [] => [List.length cols]
  | ps => ps
  end.

Definition with_vendedor (cols : list string) : list string :=
  match positions "VENDEDOR" cols with
  | [] => (cols ++ ["VENDEDOR"])%list
  | _ => cols
  end.

(** The positions of the six columns [load_data] reads. *)
Record layout := {
  at_unidades : nat;
  at_ventas : nat;
  at_porcentaje : nat;
  at_salario : nat;
  at_nombre : nat;
  at_apellido : nat
}.

Definition has_layout (cols : list string) (p : layout) : Prop :=
  positions "UNIDADES_VENDIDAS" cols = [at_unidades p] /\
  positions "VENTAS_TOTALES" cols = [at_ventas p] /\
  positions "PORCENTAJE_DE_VENTAS" cols = [at_porcentaje p] /\
  positions "SALARIO" cols = [at_salario p] /\
  positions "NOMBRE" cols = [at_nombre p] /\
  positions "APELLIDO" cols = [at_apellido p].

Definition coerced (p : layout) (r : row) : row :=
  coerce_at (at_salario p)
    (coerce_at (at_porcentaje p)
       (coerce_at (at_ventas p) (coerce_at (at_unidades p) r))).

Definition clean_row (cols : list string) (p : layout) (r : row) : row :=
  let r' := coerced p r in
  set_cells (vendedor_positions cols)
            (full_name (cell_at (at_nombre p) r') (cell_at (at_apellido p) r'))
            r'.

Definition key_positions (p : layout) : list nat :=
  [at_unidades p; at_ventas p; at_porcentaje p].

End RowWise.

(** ** The sidebar, the detail tab and the table tab *)

(** [s.unique()]: the distinct values in order of first appearance, the
    missing value among them when there is one. *)
Fixpoint series_unique_from (seen : list cell) (s : series) : list cell :=
  match s with
  | [] => []
  | c :: s' =>
      if isin c seen then series_unique_from seen s'
      else c :: series_unique_from (c :: seen) s'
  end.

Definition series_unique (s : series) : list cell := series_unique_from [] s.

(** [sorted(values)]: texts compare with texts and numbers with numbers; a
    list that holds both makes [<] raise [TypeError] (the text names the two
    types in the order Python met them).  Equal values keep their order.
    With a NaN among numbers Python's order is its algorithm's, which is not
    modelled. *)
Definition py_sorted (values : list cell) : result (list cell) :=
  if comparable values then Ok (sort_asc values)
  else Raise (Exception "'<' not supported between instances of 'str' and 'float'").

(** Line 59. *)
Definition all_regions (df : DataFrame) : result (list cell) :=
  region <- getitem df "REGION" ;;
  sorted <- py_sorted (series_unique region) ;;
  Ok (Str "TODAS" :: sorted).

(** Line 73. *)
Definition all_sellers (view : DataFrame) : result (list cell) :=
  vendedor <- getitem view "VENDEDOR" ;;
  py_sorted (series_unique vendedor).

(** The options of the selectbox (line 76). *)
Definition seller_options (view : DataFrame) : result (list cell) :=
  sellers <- all_sellers view ;;
  Ok (Str "Selecciona un vendedor..." :: sellers).

(** Line 93: [s.nunique()] counts the distinct values that are not missing. *)
Definition num_vendedores (view : DataFrame) : result nat :=
  ids <- getitem view "ID" ;;
  Ok (List.length (unique ids)).

(** [==] between a cell and a value, as a comparison of a series yields it:
    a missing value equals nothing. *)
Definition cell_equal (a b : cell) : bool :=
  match a, b with
  | Str s, Str s' => String.eqb s s'
  | Num x, Num y => Float64.eqb x y
  | _, _ => false
  end.

(** [df.iloc[0]] on a frame without rows. *)
Definition index_error : exn :=
  Exception "single positional indexer is out-of-bounds".

(** Line 158. *)
Definition seller_data (view : DataFrame) (selected_seller : cell) : result row :=
  vendedor <- getitem view "VENDEDOR" ;;
  match select (rows view)
               (map (fun c => cell_equal c selected_seller) vendedor) with
  | [] => Raise index_error
  | r :: _ => Ok r
  end.

(** Lines 156-158 and 184-185: the row the detail tab shows, or none when
    the selectbox still holds its first option. *)
Definition tab_detail (view : DataFrame) (selected_seller : cell)
  : result (option row) :=
  if negb (cell_equal selected_seller (Str "Selecciona un vendedor...")) then
    r <- seller_data view selected_seller ;;
    Ok (Some r)
  else Ok None.

(** Lines 193-201. *)
Definition columns_to_display : list (string * string) :=
  [("REGION", "Región");
   ("VENDEDOR", "Nombre Completo");
   ("ID", "ID Vendedor");
   ("SALARIO", "Salario (USD)");
   ("UNIDADES_VENDIDAS", "Unidades Vendidas");
   ("VENTAS_TOTALES", "Ventas Totales (USD)");
   ("PORCENTAJE_DE_VENTAS", "Porcentaje de Ventas")].

Fixpoint dict_get (d : list (string * string)) (k : string) : option string :=
  match d with
  | [] => None
  | (k', v) :: d' => if String.eqb k' k then Some v else dict_get d' k
  end.

(** [df.rename(columns=d)]: a label that is no key of [d] stays. *)
Definition rename (d : list (string * string)) (df : DataFrame) : DataFrame :=
  {| columns := map (fun c => match dict_get d c with
                              | Some c' => c'
                              | None => c
                              end) (columns df);
     rows := rows df |}.

(** [repr] of a list of labels without quotes in them. *)
Fixpoint join (sep : string) (l : list string) : string :=
  match l with
  | [] => ""
  | [x] => x
  | x :: l' => x ++ sep ++ join sep l'
  end.

Definition list_repr (l : list string) : string :=
  "[" ++ join ", " (map (fun x => "'" ++ x ++ "'") l) ++ "]".

(** The double quote [repr] puts around a text with single quotes in it. *)
Definition dquote : string := String (ascii_of_nat 34) EmptyString.

(** [df[labels]]: the columns under the labels, in the order of the labels;
    [KeyError] when a label selects no column. *)
Definition select_columns (df : DataFrame) (labels : list string) : result DataFrame :=
  let absent l := match positions l (columns df) with [] => true | _ => false end in
  match filter absent labels with
  | [] =>
      let ps := flat_map (fun l => positions l (columns df)) labels in
      Ok {| columns := map (fun i => nth i (columns df) "") ps;
            rows := map (fun r => map (fun i => cell_at i r) ps) (rows df) |}
  | missing =>
      if forallb absent labels then
        Raise (Exception (dquote ++ "None of [Index(" ++ list_repr labels
                          ++ ", dtype='object')] are in the [columns]" ++ dquote))
      else Raise (Exception (dquote ++ list_repr missing ++ " not in index"
                             ++ dquote))
  end.

(** Line 202. *)
Definition df_display (view : DataFrame) : result DataFrame :=
  select_columns (rename columns_to_display view)
                 (map snd columns_to_display).

(** ** Reading the views *)

(** [l] is [l'] with some elements left out, the others in their order. *)
Inductive subsequence {A : Type} : list A -> list A -> Prop :=
| subsequence_nil : subsequence [] []
| subsequence_skip (x : A) (l l' : list A) :
    subsequence l l' -> subsequence l (x :: l')
| subsequence_keep (x : A) (l l' : list A) :
    subsequence l l' -> subsequence (x :: l) (x :: l').

(** The number a row holds at position [i]. *)
Definition number_at (i : nat) (r : row) : float64 :=
  match cell_at i r with
  | Num x => x
  | Str _ => Float64.nan
  end.

(** The row holds a number that is not NaN at position [i]. *)
Definition numeric_at (i : nat) (r : row) : Prop :=
  exists x, cell_at i r = Num x /\ Float64.is_nan x = false.

(** The rows of the group of key [k], the region being at position [ir]. *)
Definition members (ir : nat) (k : cell) (rs : list row) : list row :=
  filter (fun r => cell_eqb k (cell_at ir r)) rs.

(** The row [groupby('REGION').agg(...)] writes for the key [k]. *)
Definition region_aggregate (ir iu iv ip : nat) (rs : list row) (k : cell) : row :=
  [k;
   Num (fsum (map (number_at iu) (members ir k rs)));
   Num (fsum (map (number_at iv) (members ir k rs)));
   Num (fmean (map (number_at ip) (members ir k rs)))].

(** [r'] may follow [r] in decreasing order of the number at position [i]. *)
Definition descends (i : nat) (r r' : row) : Prop :=
  Float64.leb (number_at i r') (number_at i r) = true.

(** Non-increasing order of the numbers at position [i]. *)
Definition non_increasing (i : nat) (rs : list row) : Prop :=
  forall j, S j < List.length rs ->
    Float64.leb (number_at i (nth (S j) rs [])) (number_at i (nth j rs [])) = true.

(** ** The full name as the specification words it *)


(** The ranges the data model gives the four numeric fields. *)
Definition in_unit_interval (c : cell) : bool :=
  match c with
  | Num x => Float64.leb Float64.zero x && Float64.leb x (Float64.of_Z 1)
  | Str _ => false
  end.

Definition non_negative (c : cell) : bool :=
  match c with
  | Num x => Float64.leb Float64.zero x
  | Str _ => false
  end.

(** ** Sample files *)

Module Example.

Definition whole (z : Z) : cell := Num (Float64.of_Z z).

(** The binary64 number nearest to [m / 10^k]. *)
Definition decimal (m : Z) (k : nat) : cell :=
  Num (Float64.div (Float64.of_Z m) (Float64.of_Z (10 ^ Z.of_nat k))).

Definition header : list string :=
  ["ID"; "Nombre"; "Apellido"; " Region"; "Salario"; "Unidades Vendidas";
   "Ventas Totales"; "Porcentaje de Ventas"].

(** A file with an untrimmed name, a salary that is no number, a missing
    name, a row without units, and a row out of the model's ranges. *)
Definition vendedores : DataFrame :=
  {| columns := header;
     rows :=
       [ [whole 1; Str " Ana"; Str "Diaz "; Str "Norte"; Str "abc";
          whole 10; decimal 747 1; decimal 25 2];
         [whole 2; NaN; Str "Lopez"; Str "Norte"; whole 1500;
          whole 20; decimal 23 1; decimal 5 1];
         [whole 3; Str "Eva"; Str "Ruiz"; Str "Sur"; whole 1200;
          Str "x"; whole 50; decimal 1 1];
         [whole 4; Str "Luis"; Str "Mora"; Str "Sur"; whole (-100);
          whole (-5); whole (-972); decimal 15 1] ] |}.

(** Two files with the same three rows, the last two exchanged. *)
Definition ana : row :=
  [whole 1; Str "Ana"; Str "Diaz"; Str "Norte"; whole 1000;
   whole 10; decimal 747 1; decimal 25 2].
Definition luis : row :=
  [whole 2; Str "Luis"; Str "Mora"; Str "Norte"; whole 1500;
   whole 20; decimal 23 1; decimal 5 1].
Definition eva : row :=
  [whole 3; Str "Eva"; Str "Ruiz"; Str "Norte"; whole 1200;
   whole 30; decimal 972 1; decimal 25 2].

Definition norte : DataFrame :=
  {| columns := header; rows := [ana; luis; eva] |}.

End Example.

(** ** A sample view *)

Module View.

(** A cleaned table of four sellers in two regions; the two sellers of the
    south have the same sales. *)
Definition labels : list string :=
  ["ID"; "NOMBRE"; "APELLIDO"; "REGION"; "SALARIO"; "UNIDADES_VENDIDAS";
   "VENTAS_TOTALES"; "PORCENTAJE_DE_VENTAS"; "VENDEDOR"].

Definition ana : row :=
  [Example.whole 1; Str "Ana"; Str "Diaz"; Str "Norte"; Example.whole 1000;
   Example.whole 10; Example.whole 300; Example.decimal 25 2; Str "Ana Diaz"].
Definition luis : row :=
  [Example.whole 2; Str "Luis"; Str "Mora"; Str "Sur"; Example.whole 1500;
   Example.whole 20; Example.whole 500; Example.decimal 5 1; Str "Luis Mora"].
Definition eva : row :=
  [Example.whole 3; Str "Eva"; Str "Ruiz"; Str "Sur"; NaN;
   Example.whole 30; Example.whole 500; Example.decimal 125 3; Str "Eva Ruiz"].
Definition ines : row :=
  [Example.whole 4; Str "Ines"; Str "Paz"; Str "Norte"; Example.whole 900;
   Example.whole 5; Example.whole 100; Example.decimal 125 3; Str "Ines Paz"].

Definition sellers : DataFrame :=
  {| columns := labels; rows := [ana; luis; eva; ines] |}.

End View.

(** ** Reading labels *)

(** A lowercase ASCII letter. *)
Definition is_lower (c : ascii) : bool :=
  let n := nat_of_ascii c in ((97 <=? n) && (n <=? 122))%nat.

(** The character-wise part of [clean_column]. *)
Definition clean_char (c : ascii) : ascii :=
  let u := upper_ascii c in
  if Ascii.eqb u " "%char then "_"%char else u.

(** The labels [load_data] reads, in the order it reads them. *)
Definition required_columns : list string :=
  ["UNIDADES_VENDIDAS"; "VENTAS_TOTALES"; "PORCENTAJE_DE_VENTAS"; "SALARIO";
   "NOMBRE"; "APELLIDO"].

(** The labels of the columns [load_data] writes. *)
Definition written_columns : list string :=
  ["UNIDADES_VENDIDAS"; "VENTAS_TOTALES"; "PORCENTAJE_DE_VENTAS"; "SALARIO";
   "VENDEDOR"].

(** A file that stops after its first required column. *)
Definition only_units : DataFrame :=
  {| columns := ["Unidades Vendidas"]; rows := [[Example.whole 3]] |}.

(** The row of the file has a number under each key metric once coerced. *)
Definition complete_in {py : Builtins} (raw : DataFrame) (r : row) : bool :=
  forallb (fun name =>
             match row_getitem (clean_columns raw) r name with
             | Ok c => notna (to_numeric_cell c)
             | Raise _ => false
             end) key_metrics.

(** ** Reading the sidebar and the table *)

(** The cell of a row under a column is a text. *)
Definition text_at (i : nat) (r : row) : Prop := exists s, cell_at i r = Str s.

(** Increasing order of cells. *)
Definition ascends (a b : cell) : Prop := cell_leb a b = true.

(** The cells of a row at the given positions, in their order. *)
Definition project (ps : list nat) (r : row) : row :=
  map (fun i => cell_at i r) ps.

(** A file whose second seller has an empty REGION cell. *)
Definition unassigned : DataFrame :=
  {| columns := Example.header;
     rows :=
       [ Example.ana;
         [Example.whole 2; Str "Luis"; Str "Mora"; NaN; Example.whole 1500;
          Example.whole 20; Example.decimal 23 1; Example.decimal 5 1] ] |}.

(** A file with the six columns [load_data] reads and no other. *)
Definition bare : DataFrame :=
  {| columns := ["Nombre"; "Apellido"; "Unidades Vendidas"; "Ventas Totales";
                 "Porcentaje de Ventas"; "Salario"];
     rows := [[Str "Ana"; Str "Diaz"; Example.whole 10; Example.whole 300;
               Example.decimal 25 2; Example.whole 1000]] |}.

(** No value of the series is missing and no two are equal. *)
Fixpoint distinct (s : series) : bool :=
  match s with
  | [] => true
  | c :: s' => notna c && negb (isin c s') && distinct s'
  end.

(** * Properties *)

(** ** Lists, rows and column positions *)

Lemma map2_map_r {A B C : Type} (f : A -> B -> C) (g : A -> B) (l : list A) :
  map2 f l (map g l) = map (fun x => f x (g x)) l.
Proof. induction l as [|a l IH]; simpl; [reflexivity | now rewrite IH]. Qed.

Lemma map2_map_map {A B C D : Type} (f : B -> C -> D) (g : A -> B) (h : A -> C)
      (l : list A) :
  map2 f (map g l) (map h l) = map (fun x => f (g x) (h x)) l.
Proof. induction l as [|a l IH]; simpl; [reflexivity | now rewrite IH]. Qed.

Lemma select_map {A : Type} (f : A -> bool) (l : list A) :
  select l (map f l) = filter f l.
Proof.
  induction l as [|a l IH]; simpl; [reflexivity|].
  destruct (f a); now rewrite IH.
Qed.

Lemma select_map_map {A B : Type} (g : A -> B) (f : A -> bool) (l : list A) :
  select (map g l) (map f l) = map g (filter f l).
Proof.
  induction l as [|a l IH]; simpl; [reflexivity|].
  destruct (f a); simpl; now rewrite IH.
Qed.

Lemma cell_at_nil (j : nat) : cell_at j [] = NaN.
Proof. destruct j; reflexivity. Qed.

Lemma cell_at_set_cell_same (i : nat) (v : cell) (r : row) :
  cell_at i (set_cell i v r) = v.
Proof.
  revert r; induction i as [|i IH]; intros [|c r]; simpl; try reflexivity;
    apply IH.
Qed.

Lemma cell_at_set_cell_other (i j : nat) (v : cell) (r : row) :
  i <> j -> cell_at j (set_cell i v r) = cell_at j r.
Proof.
  revert j r; induction i as [|i IH]; intros [|j] [|c r] Hij;
    try congruence; try reflexivity.
  - unfold cell_at; simpl. now destruct j.
  - change (cell_at j (set_cell i v []) = cell_at (S j) []).
    rewrite IH by congruence. now rewrite !cell_at_nil.
  - change (cell_at j (set_cell i v r) = cell_at j r).
    apply IH; congruence.
Qed.

Lemma cell_at_set_cells_other (ps : list nat) (j : nat) (v : cell) (r : row) :
  ~ In j ps -> cell_at j (set_cells ps v r) = cell_at j r.
Proof.
  revert r; induction ps as [|i ps IH]; intros r Hj; simpl; [reflexivity|].
  rewrite IH by (intro; apply Hj; now right).
  apply cell_at_set_cell_other. intro; apply Hj; now left.
Qed.

Lemma cell_at_set_cells_in (ps : list nat) (j : nat) (v : cell) (r : row) :
  In j ps -> cell_at j (set_cells ps v r) = v.
Proof.
  revert r; induction ps as [|i ps IH]; intros r Hj; simpl; [contradiction|].
  destruct (in_dec Nat.eq_dec j ps) as [Hin|Hout].
  - now apply IH.
  - destruct Hj as [->|Hj]; [|contradiction].
    rewrite cell_at_set_cells_other by assumption.
    apply cell_at_set_cell_same.
Qed.

Lemma positions_from_spec (name : string) (cols : list string) (k i : nat) :
  In i (positions_from k name cols) <->
  k <= i /\ nth_error cols (i - k) = Some name.
Proof.
  revert k; induction cols as [|c cols IH]; intros k; simpl.
  - split; [contradiction|]. intros [_ H]. now destruct (i - k).
  - destruct (String.eqb_spec c name) as [->|Hne].
    + simpl. rewrite IH. split.
      * intros [<-|[Hle H]].
        -- rewrite Nat.sub_diag. now split.
        -- split; [lia|]. replace (i - k) with (S (i - S k)) by lia. exact H.
      * intros [Hle H]. destruct (Nat.eq_dec k i) as [->|Hki]; [now left|].
        right. split; [lia|].
        replace (i - k) with (S (i - S k)) in H by lia. exact H.
    + rewrite IH. split.
      * intros [Hle H]. split; [lia|].
        replace (i - k) with (S (i - S k)) by lia. exact H.
      * intros [Hle H]. destruct (Nat.eq_dec k i) as [->|Hki].
        -- rewrite Nat.sub_diag in H. simpl in H. congruence.
        -- split; [lia|].
           replace (i - k) with (S (i - S k)) in H by lia. exact H.
Qed.

Lemma positions_spec (name : string) (cols : list string) (i : nat) :
  In i (positions name cols) <-> nth_error cols i = Some name.
Proof.
  unfold positions. rewrite positions_from_spec, Nat.sub_0_r.
  split; [now intros [_ H] | intros H; split; [lia | exact H]].
Qed.

Lemma positions_disjoint (a b : string) (cols : list string) (i j : nat) :
  a <> b -> In i (positions a cols) -> In j (positions b cols) -> i <> j.
Proof.
  rewrite !positions_spec. intros Hab Hi Hj ->. congruence.
Qed.

Lemma positions_bound (a : string) (cols : list string) (i : nat) :
  In i (positions a cols) -> i < List.length cols.
Proof.
  rewrite positions_spec. intros H. apply nth_error_Some. congruence.
Qed.

Lemma positions_from_app (name : string) (cols cols' : list string) (k : nat) :
  positions_from k name (cols ++ cols') =
  (positions_from k name cols
     ++ positions_from (k + List.length cols) name cols')%list.
Proof.
  revert k; induction cols as [|c cols IH]; intros k; simpl.
  - now rewrite Nat.add_0_r.
  - rewrite IH. replace (S k + List.length cols) with (k + S (List.length cols)) by lia.
    now destruct (String.eqb c name).
Qed.

Lemma positions_with_vendedor (name : string) (cols : list string) :
  name <> "VENDEDOR" ->
  positions name (with_vendedor cols) = positions name cols.
Proof.
  intros Hne. unfold with_vendedor.
  destruct (positions "VENDEDOR" cols); [|reflexivity].
  unfold positions. rewrite positions_from_app. cbn [positions_from].
  destruct (String.eqb_spec "VENDEDOR" name) as [E|_]; [congruence|].
  apply app_nil_r.
Qed.

Lemma positions_vendedor (cols : list string) :
  positions "VENDEDOR" (with_vendedor cols) = vendedor_positions cols.
Proof.
  unfold with_vendedor, vendedor_positions.
  destruct (positions "VENDEDOR" cols) eqn:E; [|exact E].
  unfold positions in *. rewrite positions_from_app, E.
  cbn [positions_from]. now rewrite String.eqb_refl.
Qed.

(** ** [load_data], row by row *)

Section LoadFacts.
Context {py : Builtins}.

Lemma find_column_inv (cols : list string) (name : string) (i : nat) :
  find_column cols name = Ok i -> positions name cols = [i].
Proof.
  unfold find_column. destruct (positions name cols) as [|a [|b l]];
    intros H; inversion H; reflexivity.
Qed.

Lemma find_column_ok (cols : list string) (name : string) (i : nat) :
  positions name cols = [i] -> find_column cols name = Ok i.
Proof. unfold find_column. now intros ->. Qed.

Lemma getitem_inv (df : DataFrame) (name : string) (s : series) :
  getitem df name = Ok s ->
  exists i, positions name (columns df) = [i] /\ s = map (cell_at i) (rows df).
Proof.
  unfold getitem, locate. destruct (find_column (columns df) name) as [i|e] eqn:E;
    simpl; intros H; inversion H.
  exists i. split; [now apply find_column_inv | reflexivity].
Qed.

Lemma coerce_column_inv (df df' : DataFrame) (name : string) :
  coerce_column df name = Ok df' ->
  exists i, positions name (columns df) = [i] /\
            df' = {| columns := columns df; rows := map (coerce_at i) (rows df) |}.
Proof.
  unfold coerce_column. destruct (getitem df name) as [s|e] eqn:E; simpl;
    intros H; inversion H; subst df'; clear H.
  apply getitem_inv in E as (i & Hi & ->). exists i. split; [exact Hi|].
  unfold setitem. rewrite Hi. unfold to_numeric.
  rewrite map_map, map2_map_r. reflexivity.
Qed.

Lemma setitem_vendedor (df : DataFrame) (g : row -> cell) :
  setitem df "VENDEDOR" (map g (rows df)) =
  {| columns := with_vendedor (columns df);
     rows := map (fun r => set_cells (vendedor_positions (columns df)) (g r) r)
                 (rows df) |}.
Proof.
  unfold setitem, with_vendedor, vendedor_positions.
  destruct (positions "VENDEDOR" (columns df)); rewrite map2_map_r; reflexivity.
Qed.

Lemma key_metrics_located (cols : list string) (p : layout) (rs : list row) :
  has_layout cols p ->
  locate_all {| columns := with_vendedor cols; rows := rs |} key_metrics =
  Ok (key_positions p).
Proof.
  intros (Hu & Hv & Hp & _).
  unfold key_metrics, locate_all, locate, find_column; cbn [columns].
  rewrite !positions_with_vendedor by discriminate.
  rewrite Hu, Hv, Hp. reflexivity.
Qed.

(** A load that succeeds cleans the file's rows one by one and keeps those
    whose three key metrics are present. *)
Lemma load_data_try_inv (csv : result DataFrame) (df : DataFrame) :
  load_data_try csv = Ok df ->
  exists raw p,
    csv = Ok raw /\
    has_layout (map clean_column (columns raw)) p /\
    columns df = with_vendedor (map clean_column (columns raw)) /\
    rows df = filter (complete (key_positions p))
                     (map (clean_row (map clean_column (columns raw)) p)
                          (rows raw)).
Proof.
  unfold load_data_try. destruct csv as [raw|e]; [|discriminate].
  cbn [bind]. set (cols := map clean_column (columns raw)).
  destruct (coerce_column (clean_columns raw) _) as [d1|] eqn:E1; [|discriminate].
  apply coerce_column_inv in E1 as (iu & Hu & ->). cbn [bind].
  destruct (coerce_column _ "VENTAS_TOTALES") as [d2|] eqn:E2; [|discriminate].
  apply coerce_column_inv in E2 as (iv & Hv & ->). cbn [bind].
  destruct (coerce_column _ "PORCENTAJE_DE_VENTAS") as [d3|] eqn:E3; [|discriminate].
  apply coerce_column_inv in E3 as (ip & Hp & ->). cbn [bind].
  destruct (coerce_column _ "SALARIO") as [d4|] eqn:E4; [|discriminate].
  apply coerce_column_inv in E4 as (isal & Hs & ->). cbn [bind].
  destruct (getitem _ "NOMBRE") as [nombre|] eqn:E5; [|discriminate].
  apply getitem_inv in E5 as (inom & Hn & ->). cbn [bind].
  destruct (getitem _ "APELLIDO") as [apellido|] eqn:E6; [|discriminate].
  apply getitem_inv in E6 as (iap & Ha & ->). cbn [bind].
  cbn [columns rows clean_columns] in *. fold cols in Hu, Hv, Hp, Hs, Hn, Ha.
  set (p := {| at_unidades := iu; at_ventas := iv; at_porcentaje := ip;
               at_salario := isal; at_nombre := inom; at_apellido := iap |}).
  assert (HL : has_layout cols p) by (repeat split; assumption).
  rewrite map2_map_map.
  match goal with
  | |- context [setitem ?d "VENDEDOR" (map ?g ?rs)] =>
      let Hset := fresh "Hset" in
      pose proof (setitem_vendedor d g) as Hset;
      cbn [columns rows] in Hset; rewrite Hset; clear Hset
  end.
  cbn [columns rows]. unfold dropna.
  rewrite (key_metrics_located _ _ _ HL). cbn [bind columns rows].
  intros H. inversion H; subst df; clear H. cbn [columns rows].
  exists raw, p. repeat split; try assumption.
  rewrite !map_map. reflexivity.
Qed.

End LoadFacts.

Section CleanRow.
Context {py : Builtins}.

Lemma cell_at_coerce_at (i j : nat) (r : row) :
  cell_at j (coerce_at i r) =
  if Nat.eqb i j then to_numeric_cell (cell_at j r) else cell_at j r.
Proof.
  unfold coerce_at. destruct (Nat.eqb_spec i j) as [->|Hne].
  - apply cell_at_set_cell_same.
  - now apply cell_at_set_cell_other.
Qed.

Lemma to_numeric_cell_is_num (c : cell) : exists x, to_numeric_cell c = Num x.
Proof.
  destruct c as [s|x]; simpl; [|now exists x].
  destruct (to_float s) as [x|]; [now exists x | now exists Float64.nan].
Qed.

Lemma outside_vendedor (cols : list string) (name : string) (i : nat) :
  name <> "VENDEDOR" -> positions name cols = [i] ->
  ~ In i (vendedor_positions cols).
Proof.
  intros Hne Hi Hin.
  assert (Hi' : In i (positions name cols)) by (rewrite Hi; now left).
  unfold vendedor_positions in Hin.
  destruct (positions "VENDEDOR" cols) as [|a l] eqn:E.
  - destruct Hin as [<-|[]]. apply positions_bound in Hi'. lia.
  - rewrite <- E in Hin. now apply (positions_disjoint _ _ cols i i Hne Hi' Hin).
Qed.

Ltac apart Ha Hb :=
  match type of Ha with
  | positions ?a ?cols = [?i] =>
      match type of Hb with
      | positions ?b _ = [?j] =>
          assert (i <> j)
            by (apply (positions_disjoint a b cols i j);
                [discriminate | rewrite Ha; now left | rewrite Hb; now left])
      end
  end.

Ltac decide_positions :=
  repeat match goal with
    | |- context [Nat.eqb ?a ?a] => rewrite (Nat.eqb_refl a)
    | H : ?a <> ?b |- context [Nat.eqb ?a ?b] =>
        rewrite (proj2 (Nat.eqb_neq a b) H)
    | H : ?a <> ?b |- context [Nat.eqb ?b ?a] =>
        rewrite (proj2 (Nat.eqb_neq b a) (not_eq_sym H))
    end.

(** The cells of a cleaned row: the four numeric columns hold the coerced
    cells, the two name columns are untouched, and every column labelled
    VENDEDOR holds the concatenation. *)
Lemma clean_row_cells (cols : list string) (p : layout) (r : row) :
  has_layout cols p ->
  let r' := clean_row cols p r in
  cell_at (at_unidades p) r' = to_numeric_cell (cell_at (at_unidades p) r) /\
  cell_at (at_ventas p) r' = to_numeric_cell (cell_at (at_ventas p) r) /\
  cell_at (at_porcentaje p) r' = to_numeric_cell (cell_at (at_porcentaje p) r) /\
  cell_at (at_salario p) r' = to_numeric_cell (cell_at (at_salario p) r) /\
  cell_at (at_nombre p) r' = cell_at (at_nombre p) r /\
  cell_at (at_apellido p) r' = cell_at (at_apellido p) r /\
  (forall j, In j (vendedor_positions cols) ->
             cell_at j r' =
             full_name (cell_at (at_nombre p) r) (cell_at (at_apellido p) r)).
Proof.
  intros (Hu & Hv & Hp & Hs & Hn & Ha) r'. subst r'.
  apart Hu Hv. apart Hu Hp. apart Hu Hs. apart Hu Hn. apart Hu Ha.
  apart Hv Hp. apart Hv Hs. apart Hv Hn. apart Hv Ha.
  apart Hp Hs. apart Hp Hn. apart Hp Ha.
  apart Hs Hn. apart Hs Ha.
  unfold clean_row.
  assert (Hnom : cell_at (at_nombre p) (coerced p r) = cell_at (at_nombre p) r)
    by (unfold coerced; rewrite !cell_at_coerce_at; now decide_positions).
  assert (Hape : cell_at (at_apellido p) (coerced p r) = cell_at (at_apellido p) r)
    by (unfold coerced; rewrite !cell_at_coerce_at; now decide_positions).
  rewrite Hnom, Hape.
  repeat split;
    try (rewrite cell_at_set_cells_other
           by (eapply outside_vendedor; [|eassumption]; discriminate);
         unfold coerced; rewrite !cell_at_coerce_at; now decide_positions).
  intros j Hj. now apply cell_at_set_cells_in.
Qed.

Lemma complete_clean_row (cols : list string) (p : layout) (r : row) :
  has_layout cols p ->
  complete (key_positions p) (clean_row cols p r) =
  notna (to_numeric_cell (cell_at (at_unidades p) r))
  && (notna (to_numeric_cell (cell_at (at_ventas p) r))
      && (notna (to_numeric_cell (cell_at (at_porcentaje p) r)) && true)).
Proof.
  intros HL. destruct (clean_row_cells _ _ r HL) as (Eu & Ev & Ep & _).
  unfold complete, key_positions. cbn [forallb].
  now rewrite Eu, Ev, Ep.
Qed.

End CleanRow.

(** ** The cleaned table *)

Section Cleaned.
Context {py : Builtins}.

Lemma load_data_ok_inv (csv : result DataFrame) (df : DataFrame) :
  load_data csv = ([], df) -> load_data_try csv = Ok df.
Proof.
  unfold load_data. destruct (load_data_try csv) as [d|[|e]]; intros H;
    inversion H; reflexivity.
Qed.

Lemma loaded_inv (csv : result DataFrame) (df : DataFrame) :
  load_data csv = ([], df) ->
  exists raw p,
    csv = Ok raw /\
    has_layout (columns (clean_columns raw)) p /\
    columns df = with_vendedor (columns (clean_columns raw)) /\
    rows df = filter (complete (key_positions p))
                     (map (clean_row (columns (clean_columns raw)) p) (rows raw)).
Proof. intros H. now apply load_data_try_inv, load_data_ok_inv. Qed.

Lemma row_getitem_at (df : DataFrame) (r : row) (name : string) (i : nat) :
  positions name (columns df) = [i] -> row_getitem df r name = Ok (cell_at i r).
Proof.
  intros H. unfold row_getitem, locate. now rewrite (find_column_ok _ _ _ H).
Qed.

Lemma row_getitem_loaded (df : DataFrame) (cols : list string) (r : row)
      (name : string) (i : nat) :
  columns df = with_vendedor cols -> name <> "VENDEDOR" ->
  positions name cols = [i] -> row_getitem df r name = Ok (cell_at i r).
Proof.
  intros Hc Hne Hi. apply row_getitem_at.
  now rewrite Hc, positions_with_vendedor.
Qed.

Lemma key_metrics_cases (name : string) (cols : list string) (p : layout) :
  has_layout cols p -> In name ("SALARIO" :: key_metrics) ->
  name <> "VENDEDOR" /\
  exists i, positions name cols = [i] /\
            forall r, cell_at i (clean_row cols p r) = to_numeric_cell (cell_at i r).
Proof.
  intros HL Hin. pose proof HL as (Hu & Hv & Hp & Hs & _).
  assert (Hc := fun r => clean_row_cells _ _ r HL). cbv zeta in Hc.
  destruct Hin as [<-|[<-|[<-|[<-|[]]]]]; (split; [discriminate|]).
  - exists (at_salario p). split; [assumption | intros r; apply Hc].
  - exists (at_unidades p). split; [assumption | intros r; apply Hc].
  - exists (at_ventas p). split; [assumption | intros r; apply Hc].
  - exists (at_porcentaje p). split; [assumption | intros r; apply Hc].
Qed.

Lemma in_key_positions (name : string) (cols : list string) (p : layout) (i : nat) :
  has_layout cols p -> In name key_metrics -> positions name cols = [i] ->
  In i (key_positions p).
Proof.
  intros (Hu & Hv & Hp & _) Hin Hi. unfold key_positions.
  destruct Hin as [<-|[<-|[<-|[]]]]; rewrite Hi in *.
  - inversion Hu. now left.
  - inversion Hv. right; now left.
  - inversion Hp. right; right; now left.
Qed.

(** A row of the file whose three key metrics coerce to numbers is kept. *)
Lemma kept (raw : DataFrame) (p : layout) (r : row) :
  has_layout (columns (clean_columns raw)) p ->
  In r (rows raw) ->
  (forall name, In name key_metrics ->
     exists c, row_getitem (clean_columns raw) r name = Ok c /\
               notna (to_numeric_cell c) = true) ->
  In (clean_row (columns (clean_columns raw)) p r)
     (filter (complete (key_positions p))
             (map (clean_row (columns (clean_columns raw)) p) (rows raw))).
Proof.
  intros HL Hin Hkey. apply filter_In. split; [now apply in_map|].
  rewrite (complete_clean_row _ _ r HL).
  pose proof HL as (Hu & Hv & Hp & _).
  assert (K : forall name i, In name key_metrics ->
                positions name (columns (clean_columns raw)) = [i] ->
                notna (to_numeric_cell (cell_at i r)) = true).
  { intros name i Hn Hi. destruct (Hkey name Hn) as (c & Hc & Hna).
    rewrite (row_getitem_at _ r _ _ Hi) in Hc. inversion Hc; subst c.
    exact Hna. }
  rewrite (K _ _ (or_introl eq_refl) Hu).
  rewrite (K _ _ (or_intror (or_introl eq_refl)) Hv).
  rewrite (K _ _ (or_intror (or_intror (or_introl eq_refl))) Hp).
  reflexivity.
Qed.

End Cleaned.

(** A row of the file whose three key metrics coerce to numbers has its
    cleaned image in the table: the four numeric cells coerced, the name
    cells as they were, the concatenation under VENDEDOR. *)
Lemma retained_image
      {py : Builtins} (csv : result DataFrame) (df : DataFrame) :
  load_data csv = ([], df) ->
  forall raw r, csv = Ok raw -> In r (rows raw) ->
    (forall name, In name key_metrics ->
       exists c, row_getitem (clean_columns raw) r name = Ok c /\
                 notna (to_numeric_cell c) = true) ->
    exists r', In r' (rows df) /\
      (forall name, In name ("SALARIO" :: key_metrics) ->
         exists c, row_getitem (clean_columns raw) r name = Ok c /\
                   row_getitem df r' name = Ok (to_numeric_cell c)) /\
      (exists a b,
         row_getitem (clean_columns raw) r "NOMBRE" = Ok a /\
         row_getitem (clean_columns raw) r "APELLIDO" = Ok b /\
         forall j, In j (positions "VENDEDOR" (columns df)) ->
                   cell_at j r' = full_name a b).
Proof.
  intros Hload raw' r Heq Hr Hkey.
  destruct (loaded_inv _ _ Hload) as (raw & p & Hcsv & HL & Hcols & Hrows).
  rewrite Heq in Hcsv. inversion Hcsv; subst raw'; clear Hcsv.
  exists (clean_row (columns (clean_columns raw)) p r). split; [|split].
  - rewrite Hrows. now apply kept.
  - intros name Hname.
    destruct (key_metrics_cases name _ p HL Hname) as (Hne & i & Hi & Hcell).
    exists (cell_at i r). split.
    + now apply row_getitem_at.
    + rewrite (row_getitem_loaded df _ _ name i Hcols Hne Hi).
      now rewrite Hcell.
  - pose proof HL as (_ & _ & _ & _ & Hn & Ha).
    destruct (clean_row_cells _ _ r HL) as (_ & _ & _ & _ & _ & _ & Ev).
    exists (cell_at (at_nombre p) r), (cell_at (at_apellido p) r).
    repeat split; try (now apply row_getitem_at).
    intros j Hj. rewrite Hcols, positions_vendedor in Hj. now apply Ev.
Qed.


(** The steps after [pd.read_csv] raise no [FileNotFoundError]. *)
Lemma bind_no_file_error {A B : Type} (m : result A) (k : A -> result B) :
  m <> Raise FileNotFoundError ->
  (forall a, k a <> Raise FileNotFoundError) ->
  bind m k <> Raise FileNotFoundError.
Proof.
  intros Hm Hk. destruct m as [a|e]; cbn [bind]; [apply Hk|].
  intros H. apply Hm. now inversion H.
Qed.

Lemma find_column_no_file_error (cols : list string) (name : string) :
  find_column cols name <> Raise FileNotFoundError.
Proof.
  unfold find_column. destruct (positions name cols) as [|a [|b l]];
    discriminate.
Qed.

Lemma getitem_no_file_error (df : DataFrame) (name : string) :
  getitem df name <> Raise FileNotFoundError.
Proof.
  apply bind_no_file_error; [apply find_column_no_file_error | discriminate].
Qed.

Lemma coerce_column_no_file_error {py : Builtins} (df : DataFrame) (name : string) :
  coerce_column df name <> Raise FileNotFoundError.
Proof.
  apply bind_no_file_error; [apply getitem_no_file_error | discriminate].
Qed.

Lemma dropna_no_file_error (subset : list string) (df : DataFrame) :
  dropna subset df <> Raise FileNotFoundError.
Proof.
  apply bind_no_file_error; [|discriminate].
  induction subset as [|l ls IH]; [discriminate|]. cbn [locate_all].
  apply bind_no_file_error; [apply find_column_no_file_error|].
  intros i. apply bind_no_file_error; [exact IH | discriminate].
Qed.

Lemma processing_no_file_error {py : Builtins} (raw : DataFrame) :
  load_data_try (Ok raw) <> Raise FileNotFoundError.
Proof.
  unfold load_data_try. cbn [bind].
  repeat (apply bind_no_file_error;
          [first [apply coerce_column_no_file_error
                 | apply getitem_no_file_error] | intros ?]).
  apply dropna_no_file_error.
Qed.

(** ** Claims on [load_data] *)

(** C3.  When the file loads, every row of the cleaned table holds a number
    that is not NaN under each of UNIDADES_VENDIDAS, VENTAS_TOTALES and
    PORCENTAJE_DE_VENTAS; and a row of the file whose three key metrics
    coerce to numbers is retained whatever its salary cell is: the cleaned
    row carries the coerced cells, a NaN salary included. *)
Theorem load_data_rows_have_key_metrics
        {py : Builtins} (csv : result DataFrame) (df : DataFrame) :
  load_data csv = ([], df) ->
  (forall r name, In r (rows df) -> In name key_metrics ->
     exists x, row_getitem df r name = Ok (Num x) /\ Float64.is_nan x = false)
  /\
  (forall raw r, csv = Ok raw -> In r (rows raw) ->
     (forall name, In name key_metrics ->
        exists c, row_getitem (clean_columns raw) r name = Ok c /\
                  notna (to_numeric_cell c) = true) ->
     exists r', In r' (rows df) /\
       forall name, In name ("SALARIO" :: key_metrics) ->
         exists c, row_getitem (clean_columns raw) r name = Ok c /\
                   row_getitem df r' name = Ok (to_numeric_cell c)).
Proof.
  intros Hload.
  destruct (loaded_inv _ _ Hload) as (raw & p & -> & HL & Hcols & Hrows).
  split.
  - intros r name Hr Hname. rewrite Hrows in Hr.
    apply filter_In in Hr as [Hr Hcomplete].
    apply in_map_iff in Hr as (r0 & <- & _).
    destruct (key_metrics_cases name _ p HL (or_intror Hname))
      as (Hne & i & Hi & Hcell).
    rewrite (row_getitem_loaded df _ _ name i Hcols Hne Hi).
    destruct (to_numeric_cell_is_num (cell_at i r0)) as (x & Hx).
    exists x. rewrite Hcell, Hx. split; [reflexivity|].
    unfold complete in Hcomplete. rewrite forallb_forall in Hcomplete.
    specialize (Hcomplete i (in_key_positions name _ p i HL Hname Hi)).
    rewrite Hcell, Hx in Hcomplete. unfold notna in Hcomplete. simpl in Hcomplete.
    now destruct (Float64.is_nan x).
  - intros raw' r Heq Hr Hkey.
    destruct (retained_image _ df Hload raw' r Heq Hr Hkey)
      as (r' & Hr' & Hcells & _).
    now exists r'.
Qed.

(** C3, witness: the sample file loads; its first row has the salary "abc"
    and is retained. *)
Lemma load_data_rows_have_key_metrics_witness :
  load_data (py := Sample.py) (Ok Example.vendedores)
  = ([], snd (load_data (py := Sample.py) (Ok Example.vendedores)))
  /\ (forall r name,
        In r (rows (snd (load_data (py := Sample.py) (Ok Example.vendedores)))) ->
        In name key_metrics ->
        exists x,
          row_getitem (snd (load_data (py := Sample.py) (Ok Example.vendedores)))
                      r name = Ok (Num x)
          /\ Float64.is_nan x = false).
Proof.
  split; [reflexivity|].
  exact (proj1 (load_data_rows_have_key_metrics (py := Sample.py)
                  (Ok Example.vendedores) _ eq_refl)).
Defined.


Lemma filtered_rows_incl (df view : DataFrame) (selected_regions : list cell) :
  df_filtered_region df selected_regions = Ok view ->
  columns view = columns df /\ incl (rows view) (rows df).
Proof.
  unfold df_filtered_region.
  destruct (isin (Str "TODAS") selected_regions).
  - intros H; inversion H; subst. split; [reflexivity | apply incl_refl].
  - destruct (getitem df "REGION") as [region|e] eqn:E; [|discriminate].
    apply getitem_inv in E as (i & _ & ->). cbn [bind].
    intros H; inversion H; subst; clear H. cbn [columns rows].
    split; [reflexivity|]. rewrite map_map, select_map.
    intros r Hr. now apply filter_In in Hr.
Qed.

Lemma insert_desc_incl (i : nat) (r : row) (l : list row) :
  incl (insert_desc i r l) (r :: l).
Proof.
  induction l as [|r' l IH]; simpl; [apply incl_refl|].
  destruct (cell_leb (cell_at i r') (cell_at i r)); [apply incl_refl|].
  intros x [<-|Hx]; [right; now left|].
  destruct (IH x Hx) as [<-|Hin]; [now left | right; now right].
Qed.

Lemma sort_desc_incl (i : nat) (rs : list row) : incl (sort_desc i rs) rs.
Proof.
  induction rs as [|r rs IH]; simpl; [apply incl_refl|].
  intros x Hx. apply insert_desc_incl in Hx as [<-|Hx]; [now left|].
  right. now apply IH.
Qed.





(** C9, as stated, fails: [load_data] checks no range.  The last row of the
    sample file is retained with a sales percentage of 1.5 and a negative
    salary, negative units and negative sales. *)
Lemma cleaned_row_out_of_range :
  let df := snd (load_data (py := Sample.py) (Ok Example.vendedores)) in
  let r := nth 2 (rows df) [] in
  In r (rows df) /\
  row_getitem df r "PORCENTAJE_DE_VENTAS" = Ok (Example.decimal 15 1) /\
  in_unit_interval (Example.decimal 15 1) = false /\
  row_getitem df r "SALARIO" = Ok (Example.whole (-100)) /\
  non_negative (Example.whole (-100)) = false /\
  row_getitem df r "UNIDADES_VENDIDAS" = Ok (Example.whole (-5)) /\
  non_negative (Example.whole (-5)) = false /\
  row_getitem df r "VENTAS_TOTALES" = Ok (Example.whole (-972)) /\
  non_negative (Example.whole (-972)) = false.
Proof.
  vm_compute. repeat split; try reflexivity. right; right; now left.
Qed.

(** C9, amended.  [load_data] constrains no value: a row of the file that
    carries numbers [x], [y], [z] (none NaN, of any sign and size) under the
    three key metrics is retained with exactly these numbers, and with its
    salary cell as coerced. *)
Theorem load_data_keeps_values_unchecked
        {py : Builtins} (csv : result DataFrame) (df raw : DataFrame)
        (r : row) (x y z : float64) :
  load_data csv = ([], df) -> csv = Ok raw -> In r (rows raw) ->
  row_getitem (clean_columns raw) r "UNIDADES_VENDIDAS" = Ok (Num x) ->
  row_getitem (clean_columns raw) r "VENTAS_TOTALES" = Ok (Num y) ->
  row_getitem (clean_columns raw) r "PORCENTAJE_DE_VENTAS" = Ok (Num z) ->
  Float64.is_nan x = false -> Float64.is_nan y = false ->
  Float64.is_nan z = false ->
  exists r', In r' (rows df) /\
    row_getitem df r' "UNIDADES_VENDIDAS" = Ok (Num x) /\
    row_getitem df r' "VENTAS_TOTALES" = Ok (Num y) /\
    row_getitem df r' "PORCENTAJE_DE_VENTAS" = Ok (Num z) /\
    exists s, row_getitem (clean_columns raw) r "SALARIO" = Ok s /\
              row_getitem df r' "SALARIO" = Ok (to_numeric_cell s).
Proof.
  intros Hload Hcsv Hr Hx Hy Hz Nx Ny Nz.
  destruct (retained_image csv df Hload raw r Hcsv Hr)
    as (r' & Hr' & Hcells & _).
  - intros name [<-|[<-|[<-|[]]]]; eexists; (split; [eassumption|]);
      unfold notna; simpl; now rewrite ?Nx, ?Ny, ?Nz.
  - exists r'. split; [exact Hr'|].
    assert (K : forall name c,
               In name ("SALARIO" :: key_metrics) ->
               row_getitem (clean_columns raw) r name = Ok c ->
               row_getitem df r' name = Ok (to_numeric_cell c)).
    { intros name c Hn Hc. destruct (Hcells name Hn) as (c' & Hc' & Hout).
      rewrite Hc in Hc'. inversion Hc'; subst c'. exact Hout. }
    repeat split.
    + apply (K _ (Num x)); [right; now left | exact Hx].
    + apply (K _ (Num y)); [right; right; now left | exact Hy].
    + apply (K _ (Num z)); [right; right; right; now left | exact Hz].
    + destruct (Hcells "SALARIO" (or_introl eq_refl)) as (s & Hs & Hout).
      now exists s.
Qed.

(** C9, witness: the last row of the sample file, with -5 units, sales of
    -972 and a sales percentage of 1.5. *)
Lemma load_data_keeps_values_unchecked_witness :
  exists r',
    In r' (rows (snd (load_data (py := Sample.py) (Ok Example.vendedores)))) /\
    row_getitem (snd (load_data (py := Sample.py) (Ok Example.vendedores)))
                r' "PORCENTAJE_DE_VENTAS" = Ok (Example.decimal 15 1).
Proof.
  destruct (load_data_keeps_values_unchecked (py := Sample.py)
              (Ok Example.vendedores)
              (snd (load_data (py := Sample.py) (Ok Example.vendedores)))
              Example.vendedores
              (nth 3 (rows Example.vendedores) [])
              (Float64.of_Z (-5)) (Float64.of_Z (-972))
              (Float64.div (Float64.of_Z 15) (Float64.of_Z 10))
              eq_refl eq_refl
              (or_intror (or_intror (or_intror (or_introl eq_refl))))
              eq_refl eq_refl eq_refl eq_refl eq_refl eq_refl)
    as (r' & Hin & _ & _ & Hp & _).
  exists r'. split; [exact Hin | exact Hp].
Defined.



(** C8.  [load_data] returns in every case.  When [pd.read_csv] raises
    [FileNotFoundError], the file-missing message goes to [st.error] and the
    empty frame is returned; any other exception, of [pd.read_csv] or of the
    processing steps after it, is turned into the load-error message carrying
    the exception's text, and the empty frame is returned; and on an empty
    frame the script shows its closing error display instead of the
    dashboard. *)
Theorem load_data_never_raises {py : Builtins} :
  load_data (Raise FileNotFoundError)
  = (["¡Error! No se encontró el archivo de datos: vendedores.csv"], empty_frame)
  /\
  (forall e,
     load_data (Raise (Exception e))
     = (["Ocurrió un error al cargar o procesar los datos: " ++ e], empty_frame))
  /\
  (forall raw e,
     load_data_try (Ok raw) = Raise e ->
     exists msg,
       e = Exception msg /\
       load_data (Ok raw)
       = (["Ocurrió un error al cargar o procesar los datos: " ++ msg],
          empty_frame))
  /\
  (forall csv,
     (exists df, load_data_try csv = Ok df /\ load_data csv = ([], df)) \/
     (exists msg, load_data csv = ([msg], empty_frame)))
  /\
  (forall csv,
     empty (snd (load_data csv)) = true ->
     exists msg, snd (main csv) = ErrorDisplay msg)
  /\
  (forall csv e,
     load_data_try csv = Raise e ->
     exists msg, snd (main csv) = ErrorDisplay msg).
Proof.
  split; [reflexivity|]. split; [reflexivity|].
  split; [|split; [|split]].
  - intros raw e H.
    assert (He : exists msg, e = Exception msg).
    { destruct e as [|msg]; [|now exists msg].
      now apply processing_no_file_error in H. }
    destruct He as (msg & ->). exists msg. split; [reflexivity|].
    unfold load_data. now rewrite H.
  - intros csv. unfold load_data.
    destruct (load_data_try csv) as [df|[|e]].
    + left. now exists df.
    + right. now eexists.
    + right. now eexists.
  - intros csv H. unfold main.
    destruct (load_data csv) as [errors df]. simpl in H. rewrite H.
    now eexists.
  - intros csv e H. unfold main, load_data. rewrite H.
    destruct e; now eexists.
Qed.

(** A file without the UNIDADES_VENDIDAS column: the [KeyError] of line 29
    ends as a message and the empty frame, and the page is the error
    display. *)
Example missing_column_is_reported :
  main (py := Sample.py) (Ok {| columns := ["ID"; "Nombre"]; rows := [[NaN; NaN]] |})
  = (["Ocurrió un error al cargar o procesar los datos: 'UNIDADES_VENDIDAS'"],
     ErrorDisplay "No se pudieron cargar los datos. Por favor, verifica el nombre del archivo 'vendedores.csv' y su contenido.").
Proof. reflexivity. Qed.

(** The sample file loads without a message and the page is the dashboard. *)
Example sample_file_loads :
  exists df, main (py := Sample.py) (Ok Example.vendedores) = ([], Dashboard df)
             /\ List.length (rows df) = 3.
Proof. eexists. split; reflexivity. Qed.

(** ** The region filter *)

Lemma filter_subsequence {A : Type} (f : A -> bool) (l : list A) :
  subsequence (filter f l) l.
Proof.
  induction l as [|a l IH]; simpl; [constructor|].
  destruct (f a); now constructor.
Qed.

Lemma cell_eqb_str (s : string) (c : cell) :
  cell_eqb (Str s) c = true <-> c = Str s.
Proof.
  destruct c as [s'|x]; simpl.
  - rewrite String.eqb_eq. split; congruence.
  - split; discriminate.
Qed.

Lemma isin_str (s : string) (values : list cell) :
  isin (Str s) values = true <-> In (Str s) values.
Proof.
  unfold isin. rewrite existsb_exists. split.
  - intros (c & Hc & E). apply cell_eqb_str in E. now subst c.
  - intros H. exists (Str s). split; [exact H | now apply cell_eqb_str].
Qed.

Lemma df_filtered_region_some (df : DataFrame) (selected_regions : list cell)
      (i : nat) :
  isin (Str "TODAS") selected_regions = false ->
  locate df "REGION" = Ok i ->
  df_filtered_region df selected_regions
  = Ok {| columns := columns df;
          rows := filter (fun r => isin (cell_at i r) selected_regions) (rows df) |}.
Proof.
  intros Hs Hi. unfold df_filtered_region, getitem. rewrite Hs, Hi. cbn [bind].
  now rewrite map_map, select_map.
Qed.

(** C1, as stated, fails for the empty selection: the sample file loads to
    three rows, and with nothing selected the filtered view has none. *)
Lemma empty_selection_is_not_all :
  let df := snd (load_data (py := Sample.py) (Ok Example.vendedores)) in
  List.length (rows df) = 3 /\
  exists view,
    df_filtered_region df [] = Ok view /\
    rows view = [] /\
    rows view <> rows df.
Proof.
  vm_compute. split; [reflexivity|]. eexists. split; [reflexivity|].
  split; [reflexivity | discriminate].
Qed.

(** C1, amended.  When the selection contains "TODAS" the filter returns the
    table itself: the same rows in the same order.  The empty selection is
    no sentinel: it selects no row (and needs the REGION column). *)
Theorem sentinel_selects_whole_table (df : DataFrame) (selected_regions : list cell) :
  (In (Str "TODAS") selected_regions ->
   df_filtered_region df selected_regions = Ok df) /\
  (forall i, locate df "REGION" = Ok i ->
     df_filtered_region df [] = Ok {| columns := columns df; rows := [] |}) /\
  (forall e, locate df "REGION" = Raise e -> df_filtered_region df [] = Raise e).
Proof.
  split; [|split].
  - intros H. apply isin_str in H. unfold df_filtered_region. now rewrite H.
  - intros i Hi. rewrite (df_filtered_region_some df [] i eq_refl Hi).
    f_equal. f_equal. induction (rows df) as [|r rs IH]; [reflexivity|exact IH].
  - intros e He. unfold df_filtered_region, getitem. cbn [isin existsb].
    now rewrite He.
Qed.

(** C6.  When the selection does not contain "TODAS", the filter returns
    exactly the rows whose region is in the selection, in their original
    order: a subsequence of the input, hence no longer than it. *)
Theorem region_filter_keeps_selected_rows
        (df : DataFrame) (selected_regions : list cell) (i : nat) :
  ~ In (Str "TODAS") selected_regions ->
  locate df "REGION" = Ok i ->
  exists view,
    df_filtered_region df selected_regions = Ok view /\
    columns view = columns df /\
    rows view = filter (fun r => isin (cell_at i r) selected_regions) (rows df) /\
    subsequence (rows view) (rows df) /\
    List.length (rows view) <= List.length (rows df) /\
    (forall r, In r (rows view) <->
               In r (rows df) /\ isin (cell_at i r) selected_regions = true) /\
    (forall r s, cell_at i r = Str s ->
       (In r (rows view) <-> In r (rows df) /\ In (Str s) selected_regions)).
Proof.
  intros Hs Hi.
  assert (Hs' : isin (Str "TODAS") selected_regions = false).
  { destruct (isin (Str "TODAS") selected_regions) eqn:E; [|reflexivity].
    apply isin_str in E. contradiction. }
  rewrite (df_filtered_region_some df selected_regions i Hs' Hi).
  eexists. split; [reflexivity|]. cbn [columns rows].
  split; [reflexivity|]. split; [reflexivity|].
  split; [apply filter_subsequence|].
  split; [apply filter_length_le|].
  split.
  - intros r. exact (filter_In _ r (rows df)).
  - intros r s Hr. rewrite filter_In, Hr, isin_str. reflexivity.
Qed.

(** C6, witness: the sample table filtered by the region "Norte". *)
Lemma region_filter_keeps_selected_rows_witness :
  exists view,
    df_filtered_region (snd (load_data (py := Sample.py) (Ok Example.vendedores)))
                       [Str "Norte"] = Ok view /\
    List.length (rows view) = 2.
Proof.
  assert (Hs : ~ In (Str "TODAS") [Str "Norte"])
    by (intros [H|[]]; discriminate H).
  destruct (region_filter_keeps_selected_rows
              (snd (load_data (py := Sample.py) (Ok Example.vendedores)))
              [Str "Norte"] 3 Hs eq_refl)
    as (view & Hview & _ & Hrows & _).
  exists view. split; [exact Hview|]. rewrite Hrows. reflexivity.
Defined.

(** ** The order of binary64 numbers *)

Lemma SFcompare_antisym (x y : float64) :
  SFcompare y x = option_map CompOpp (SFcompare x y).
Proof.
  destruct x as [sx|sx| |sx mx ex], y as [sy|sy| |sy my ey]; simpl;
    try reflexivity;
    try (destruct sx; reflexivity); try (destruct sy; reflexivity);
    try (destruct sx, sy; reflexivity).
  change (Pos.compare_cont Eq my mx) with (Pos.compare my mx).
  change (Pos.compare_cont Eq mx my) with (Pos.compare mx my).
  rewrite (Z.compare_antisym ex ey), (Pos.compare_antisym mx my).
  destruct sx, sy; simpl; try reflexivity;
    destruct (ex ?= ey)%Z; simpl; try reflexivity;
    now destruct (mx ?= my)%positive.
Qed.

Lemma SFcompare_defined (x y : float64) :
  Float64.is_nan x = false -> Float64.is_nan y = false ->
  exists c, SFcompare x y = Some c.
Proof.
  destruct x as [sx|sx| |sx mx ex], y as [sy|sy| |sy my ey]; simpl;
    intros Hx Hy; try discriminate; eexists; reflexivity.
Qed.

(** Two numbers that are not NaN compare one way or the other. *)
Lemma leb_total (x y : float64) :
  Float64.is_nan x = false -> Float64.is_nan y = false ->
  Float64.leb x y = false -> Float64.leb y x = true.
Proof.
  intros Hx Hy. unfold Float64.leb, SFleb. rewrite (SFcompare_antisym x y).
  destruct (SFcompare_defined x y Hx Hy) as (c & ->). simpl.
  now destruct c.
Qed.

Lemma leb_refl (x : float64) : Float64.is_nan x = false -> Float64.leb x x = true.
Proof.
  intros Hx. destruct (Float64.leb x x) eqn:E; [reflexivity|].
  pose proof (leb_total x x Hx Hx E). congruence.
Qed.

(** ** Views of the cleaned table *)

Lemma numeric_values_numbers (i : nat) (rs : list row) :
  Forall (numeric_at i) rs ->
  numeric_values (map (cell_at i) rs) = Ok (map (number_at i) rs).
Proof.
  induction 1 as [|r rs (x & Hx & Hn) _ IH]; [reflexivity|].
  cbn [map numeric_values]. unfold number_at at 1. rewrite Hx, IH. cbn [bind].
  now rewrite Hn.
Qed.

Lemma Forall_incl {A : Type} (P : A -> Prop) (l l' : list A) :
  incl l l' -> Forall P l' -> Forall P l.
Proof.
  intros Hi Hl. apply Forall_forall. intros x Hx.
  rewrite Forall_forall in Hl. now apply Hl, Hi.
Qed.

(** What every view of a loaded table offers: the three key metrics, each
    under one label, with a number in every row. *)
Lemma loaded_view {py : Builtins} (csv : result DataFrame) (df view : DataFrame)
      (selected_regions : list cell) :
  load_data csv = ([], df) ->
  df_filtered_region df selected_regions = Ok view ->
  exists iu iv ip,
    locate view "UNIDADES_VENDIDAS" = Ok iu /\
    locate view "VENTAS_TOTALES" = Ok iv /\
    locate view "PORCENTAJE_DE_VENTAS" = Ok ip /\
    Forall (numeric_at iu) (rows view) /\
    Forall (numeric_at iv) (rows view) /\
    Forall (numeric_at ip) (rows view).
Proof.
  intros Hload Hview.
  destruct (loaded_inv _ _ Hload) as (raw & p & _ & HL & Hcols & Hrows).
  apply filtered_rows_incl in Hview as [Hc Hincl].
  pose proof HL as (Hu & Hv & Hp & _).
  assert (Hloc : forall name i, name <> "VENDEDOR" ->
            positions name (columns (clean_columns raw)) = [i] ->
            locate view name = Ok i).
  { intros name i Hne Hi. unfold locate. rewrite Hc, Hcols.
    apply find_column_ok. now rewrite positions_with_vendedor. }
  assert (Hnum : forall i, In i (key_positions p) ->
            (forall r, cell_at i (clean_row (columns (clean_columns raw)) p r)
                       = to_numeric_cell (cell_at i r)) ->
            Forall (numeric_at i) (rows view)).
  { intros i Hi Hcell. apply (Forall_incl _ _ _ Hincl). rewrite Hrows.
    apply Forall_forall. intros r Hr.
    apply filter_In in Hr as [Hr Hcomplete].
    apply in_map_iff in Hr as (r0 & <- & _).
    unfold complete in Hcomplete. rewrite forallb_forall in Hcomplete.
    specialize (Hcomplete i Hi). rewrite Hcell in *.
    destruct (to_numeric_cell_is_num (cell_at i r0)) as (x & Hx).
    exists x. rewrite Hcell. split; [exact Hx|]. rewrite Hx in Hcomplete.
    unfold notna in Hcomplete. simpl in Hcomplete.
    now destruct (Float64.is_nan x). }
  assert (Hc' := fun r => clean_row_cells _ _ r HL). cbv zeta in Hc'.
  exists (at_unidades p), (at_ventas p), (at_porcentaje p).
  split; [apply Hloc; [discriminate | exact Hu]|].
  split; [apply Hloc; [discriminate | exact Hv]|].
  split; [apply Hloc; [discriminate | exact Hp]|].
  split; [|split]; apply Hnum; unfold key_positions;
    try (intros r; apply Hc'); simpl; auto.
Qed.

(** ** Summary metrics *)

Lemma total_of_no_rows (view : DataFrame) (name : string) (i : nat) :
  locate view name = Ok i -> rows view = [] ->
  (s <- getitem view name ;; series_sum s) = Ok Float64.zero.
Proof.
  intros Hi Hr. unfold getitem. rewrite Hi, Hr. reflexivity.
Qed.

(** C2, as stated, fails: on an empty view only the top seller is "N/A".
    With no region selected the view of the sample table is empty; the
    sales metric reads "$0" and the units metric "0.0" (the column is
    binary64; "0" were it of integers), the formatted sums of no rows. *)
Lemma empty_view_totals_are_zero :
  let df := snd (load_data (py := Sample.py) (Ok Example.vendedores)) in
  exists view,
    df_filtered_region df [] = Ok view /\
    rows view = [] /\
    col1 (py := Sample.py) view
    = Ok {| label := "Ventas Totales Filtro (USD)";
            value := Str "$0"; delta := None |} /\
    col2 (py := Sample.py) view
    = Ok {| label := "Unidades Totales Vendidas";
            value := Str "0.0"; delta := None |} /\
    Str "$0" <> Str "N/A" /\ Str "0.0" <> Str "N/A".
Proof.
  vm_compute. eexists. split; [reflexivity|].
  repeat (split; [reflexivity|]). split; discriminate.
Qed.

(** C2, amended.  On an empty view of a loaded table no metric raises; the
    top seller shows "N/A" for its value and its delta, and the two totals
    show the sum of no rows, 0.0, formatted: "$" followed by [format(0.0,
    ",.0f")] for the sales, [format(0.0, ",")] for the units. *)
Theorem empty_view_metrics
        {py : Builtins} (csv : result DataFrame) (df view : DataFrame)
        (selected_regions : list cell) :
  load_data csv = ([], df) ->
  df_filtered_region df selected_regions = Ok view ->
  rows view = [] ->
  total_ventas view = Ok Float64.zero /\
  total_unidades view = Ok Float64.zero /\
  col1 view = Ok {| label := "Ventas Totales Filtro (USD)";
                    value := Str ("$" ++ float_format Float64.zero ",.0f");
                    delta := None |} /\
  col2 view = Ok {| label := "Unidades Totales Vendidas";
                    value := Str (float_format Float64.zero ",");
                    delta := None |} /\
  col3 view = Ok {| label := "Vendedor con Mayor Venta";
                    value := Str "N/A";
                    delta := Some "N/A" |} /\
  Str ("$" ++ float_format Float64.zero ",.0f") <> Str "N/A".
Proof.
  intros Hload Hview Hrows.
  destruct (loaded_view csv df view selected_regions Hload Hview)
    as (iu & iv & ip & Hu & Hv & _).
  assert (Tv : total_ventas view = Ok Float64.zero)
    by (now apply (total_of_no_rows view _ iv)).
  assert (Tu : total_unidades view = Ok Float64.zero)
    by (now apply (total_of_no_rows view _ iu)).
  split; [exact Tv|]. split; [exact Tu|].
  split; [unfold col1; now rewrite Tv|].
  split; [unfold col2; now rewrite Tu|].
  split.
  - unfold col3, empty. rewrite Hrows. now destruct (columns view).
  - discriminate.
Qed.

(** C2, witness: the sample table with no region selected. *)
Lemma empty_view_metrics_witness :
  total_ventas {| columns := columns (snd (load_data (py := Sample.py)
                                             (Ok Example.vendedores)));
                  rows := [] |} = Ok Float64.zero.
Proof.
  exact (proj1 (empty_view_metrics (py := Sample.py)
                  (Ok Example.vendedores)
                  (snd (load_data (py := Sample.py) (Ok Example.vendedores)))
                  {| columns := columns (snd (load_data (py := Sample.py)
                                               (Ok Example.vendedores)));
                     rows := [] |}
                  [] eq_refl eq_refl eq_refl)).
Defined.

(** ** The ranking *)

Lemma cell_leb_numbers (i : nat) (r r' : row) :
  numeric_at i r -> numeric_at i r' ->
  cell_leb (cell_at i r) (cell_at i r') = Float64.leb (number_at i r) (number_at i r').
Proof.
  intros (x & Hx & _) (y & Hy & _). unfold number_at. now rewrite Hx, Hy.
Qed.

Lemma number_at_not_nan (i : nat) (r : row) :
  numeric_at i r -> Float64.is_nan (number_at i r) = false.
Proof. intros (x & Hx & Hn). unfold number_at. now rewrite Hx. Qed.

Lemma insert_desc_perm (i : nat) (r : row) (l : list row) :
  Permutation (insert_desc i r l) (r :: l).
Proof.
  induction l as [|r' l IH]; simpl; [reflexivity|].
  destruct (cell_leb (cell_at i r') (cell_at i r)); [reflexivity|].
  rewrite IH. apply perm_swap.
Qed.

Lemma sort_desc_perm (i : nat) (rs : list row) : Permutation (sort_desc i rs) rs.
Proof.
  induction rs as [|r rs IH]; simpl; [reflexivity|].
  rewrite insert_desc_perm. now apply perm_skip.
Qed.

Lemma insert_desc_sorted (i : nat) (r : row) (l : list row) :
  numeric_at i r -> Forall (numeric_at i) l ->
  Sorted (descends i) l -> Sorted (descends i) (insert_desc i r l).
Proof.
  intros Hr Hl Hs. induction Hs as [|r' l Hs IH Hd]; simpl.
  - repeat constructor.
  - inversion Hl as [|? ? Hr' Hl']; subst.
    rewrite (cell_leb_numbers i r' r Hr' Hr).
    destruct (Float64.leb (number_at i r') (number_at i r)) eqn:E.
    + constructor; [now constructor|]. constructor. exact E.
    + assert (E' : descends i r' r).
      { apply leb_total; [now apply number_at_not_nan ..| exact E]. }
      constructor; [now apply IH|].
      destruct l as [|r'' l]; simpl.
      * now constructor.
      * inversion Hl' as [|? ? Hr'' _]; subst.
        rewrite (cell_leb_numbers i r'' r Hr'' Hr).
        destruct (Float64.leb (number_at i r'') (number_at i r));
          constructor; [exact E' | now inversion Hd].
Qed.

Lemma sort_desc_sorted (i : nat) (rs : list row) :
  Forall (numeric_at i) rs -> Sorted (descends i) (sort_desc i rs).
Proof.
  induction 1 as [|r rs Hr Hrs IH]; simpl; [constructor|].
  apply insert_desc_sorted; [exact Hr | | exact IH].
  apply (Forall_incl _ _ _ (sort_desc_incl i rs) Hrs).
Qed.

Lemma Sorted_firstn {A : Type} (R : A -> A -> Prop) (n : nat) (l : list A) :
  Sorted R l -> Sorted R (firstn n l).
Proof.
  revert l; induction n as [|n IH]; intros l Hs; [constructor|].
  destruct l as [|a l]; [constructor|]. cbn [firstn].
  inversion Hs as [|? ? Hs' Hd]; subst.
  constructor; [now apply IH|].
  destruct n; [constructor|]. destruct l as [|b l]; [constructor|].
  cbn [firstn]. constructor. now inversion Hd.
Qed.

Lemma Sorted_neighbours {A : Type} (R : A -> A -> Prop) (d : A) (l : list A) :
  Sorted R l ->
  forall j, S j < List.length l -> R (nth j l d) (nth (S j) l d).
Proof.
  induction 1 as [|a l Hs IH Hd]; intros j Hj; [simpl in Hj; lia|].
  destruct j as [|j].
  - destruct l as [|b l]; [simpl in Hj; lia|]. now inversion Hd.
  - apply IH. simpl in Hj. lia.
Qed.

Lemma filter_all {A : Type} (f : A -> bool) (l : list A) :
  Forall (fun x => f x = true) l -> filter f l = l.
Proof.
  induction 1 as [|a l Ha _ IH]; [reflexivity|]. simpl. now rewrite Ha, IH.
Qed.

Lemma filter_none {A : Type} (f : A -> bool) (l : list A) :
  Forall (fun x => f x = false) l -> filter f l = [].
Proof.
  induction 1 as [|a l Ha _ IH]; [reflexivity|]. simpl. now rewrite Ha, IH.
Qed.

Lemma numeric_isna (i : nat) (r : row) :
  numeric_at i r -> isna (cell_at i r) = false.
Proof. intros (x & Hx & Hn). now rewrite Hx. Qed.

(** On rows that hold a number at [i], the sort is the numeric sort. *)
Lemma sort_values_desc_numeric (view : DataFrame) (name : string) (i : nat) :
  locate view name = Ok i ->
  Forall (numeric_at i) (rows view) ->
  sort_values_desc view name
  = Ok {| columns := columns view; rows := sort_desc i (rows view) |}.
Proof.
  intros Hi Hnum. unfold sort_values_desc. rewrite Hi. cbn [bind].
  rewrite (filter_all (fun r => notna (cell_at i r))), (filter_none (fun r => isna (cell_at i r))).
  - rewrite app_nil_r.
    replace (comparable (map (cell_at i) (rows view))) with true; [reflexivity|].
    symmetry. unfold comparable. apply orb_true_iff. left.
    apply forallb_forall. intros c Hc. apply in_map_iff in Hc as (r & <- & Hr).
    rewrite Forall_forall in Hnum. destruct (Hnum r Hr) as (x & -> & _).
    reflexivity.
  - apply Forall_forall. intros r Hr. rewrite Forall_forall in Hnum.
    now apply numeric_isna, Hnum.
  - apply Forall_forall. intros r Hr. rewrite Forall_forall in Hnum.
    unfold notna. now rewrite (numeric_isna i r (Hnum r Hr)).
Qed.

(** C5.  For every view of a loaded table and every [n], the ranking by
    PORCENTAJE_DE_VENTAS returns rows in non-increasing order of that
    number; they are the first [n] rows of a rearrangement of the view, so
    their count is exactly [min n (row count)]; the result is determined by
    the view; and the dashboard's ranking is the one for [n = 10]. *)
Theorem top_sellers_descend
        {py : Builtins} (csv : result DataFrame) (df view : DataFrame)
        (selected_regions : list cell) (n : nat) :
  load_data csv = ([], df) ->
  df_filtered_region df selected_regions = Ok view ->
  exists ip top,
    locate view "PORCENTAJE_DE_VENTAS" = Ok ip /\
    top_sellers n view = Ok top /\
    columns top = columns view /\
    List.length (rows top) = Nat.min n (List.length (rows view)) /\
    non_increasing ip (rows top) /\
    (exists sorted, Permutation sorted (rows view) /\
                    rows top = firstn n sorted) /\
    (forall top', top_sellers n view = Ok top' -> top' = top) /\
    df_top_sellers view = top_sellers 10 view.
Proof.
  intros Hload Hview.
  destruct (loaded_view csv df view selected_regions Hload Hview)
    as (iu & iv & ip & _ & _ & Hp & _ & _ & Hnum).
  exists ip. eexists.
  split; [exact Hp|].
  assert (Htop : top_sellers n view
                 = Ok (head n {| columns := columns view;
                                 rows := sort_desc ip (rows view) |})).
  { unfold top_sellers. now rewrite (sort_values_desc_numeric view _ ip Hp Hnum). }
  split; [exact Htop|]. cbn [head columns rows].
  split; [reflexivity|].
  split.
  { rewrite length_firstn. f_equal.
    apply Permutation_length, sort_desc_perm. }
  split.
  { intros j Hj.
    apply (Sorted_neighbours (descends ip) [] (firstn n (sort_desc ip (rows view)))).
    - apply Sorted_firstn. now apply sort_desc_sorted.
    - exact Hj. }
  split.
  { exists (sort_desc ip (rows view)). split; [apply sort_desc_perm | reflexivity]. }
  split; [|reflexivity].
  intros top' H. rewrite Htop in H. now inversion H.
Qed.

(** C5, witness: the three rows of the sample table ranked for [n = 2]. *)
Lemma top_sellers_descend_witness :
  exists top,
    top_sellers 2 (snd (load_data (py := Sample.py) (Ok Example.vendedores)))
    = Ok top /\
    List.length (rows top) = 2.
Proof.
  destruct (top_sellers_descend (py := Sample.py)
              (Ok Example.vendedores)
              (snd (load_data (py := Sample.py) (Ok Example.vendedores)))
              (snd (load_data (py := Sample.py) (Ok Example.vendedores)))
              [Str "TODAS"] 2 eq_refl eq_refl)
    as (ip & top & _ & Htop & _ & Hlen & _).
  exists top. split; [exact Htop | exact Hlen].
Defined.

(** ** Aggregation by region *)

Lemma cell_eqb_refl (c : cell) : isna c = false -> cell_eqb c c = true.
Proof.
  destruct c as [s|x]; simpl; intros Hn; [apply String.eqb_refl|].
  apply orb_true_iff. left. unfold Float64.eqb, SFeqb.
  pose proof (SFcompare_antisym x x) as H.
  destruct (SFcompare_defined x x Hn Hn) as (c & Hc). rewrite Hc in *.
  simpl in H. destruct c; [reflexivity | discriminate H | discriminate H].
Qed.


Lemma unique_from_complete (seen : list cell) (s : series) (c : cell) :
  In c s -> isna c = false ->
  isin c seen = true \/ isin c (unique_from seen s) = true.
Proof.
  revert seen; induction s as [|c' s IH]; intros seen Hin Hna; [contradiction|].
  simpl. destruct Hin as [->|Hin].
  - rewrite Hna. simpl. destruct (isin c seen) eqn:Hseen; [now left|].
    right. simpl. now rewrite cell_eqb_refl.
  - destruct (isna c' || isin c' seen) eqn:E.
    + now apply IH.
    + destruct (IH (c' :: seen) Hin Hna) as [H|H].
      * simpl in H. apply orb_true_iff in H as [H|H]; [|now left].
        right. simpl. now rewrite H.
      * right. simpl. rewrite H. apply orb_true_r.
Qed.


Lemma insert_asc_perm (k : cell) (ks : list cell) :
  Permutation (insert_asc k ks) (k :: ks).
Proof.
  induction ks as [|k' ks IH]; simpl; [reflexivity|].
  destruct (cell_leb k k'); [reflexivity|].
  rewrite IH. apply perm_swap.
Qed.

Lemma sort_asc_perm (ks : list cell) : Permutation (sort_asc ks) ks.
Proof.
  induction ks as [|k ks IH]; simpl; [reflexivity|].
  rewrite insert_asc_perm. now apply perm_skip.
Qed.

Lemma traverse_ok {A B : Type} (f : A -> result B) (g : A -> B) (l : list A) :
  (forall a, In a l -> f a = Ok (g a)) -> traverse f l = Ok (map g l).
Proof.
  induction l as [|a l IH]; intros H; [reflexivity|]. cbn [traverse map].
  rewrite (H a (or_introl eq_refl)). cbn [bind].
  rewrite IH by (intros b Hb; apply H; now right). reflexivity.
Qed.

Lemma group_members (ir i : nat) (k : cell) (rs : list row) :
  group (map (cell_at ir) rs) k (map (cell_at i) rs)
  = map (cell_at i) (members ir k rs).
Proof. unfold group, members. now rewrite map_map, select_map_map. Qed.

Lemma members_incl (ir : nat) (k : cell) (rs : list row) :
  incl (members ir k rs) rs.
Proof. intros r Hr. now apply filter_In in Hr. Qed.

(** On a view of a loaded table, [groupby('REGION').agg(...)] writes one
    row per group key, computed from the members of its group. *)
Lemma df_grouped_region_loaded (view : DataFrame) (ir iu iv ip : nat) :
  locate view "REGION" = Ok ir ->
  locate view "UNIDADES_VENDIDAS" = Ok iu ->
  locate view "VENTAS_TOTALES" = Ok iv ->
  locate view "PORCENTAJE_DE_VENTAS" = Ok ip ->
  Forall (numeric_at iu) (rows view) ->
  Forall (numeric_at iv) (rows view) ->
  Forall (numeric_at ip) (rows view) ->
  df_grouped_region view
  = Ok {| columns := ["REGION"; "Total_Unidades"; "Total_Ventas";
                      "Promedio_Porcentaje"];
          rows := map (region_aggregate ir iu iv ip (rows view))
                      (group_keys (map (cell_at ir) (rows view))) |}.
Proof.
  intros Hr Hu Hv Hp Nu Nv Np. unfold df_grouped_region, getitem.
  rewrite Hr, Hu, Hv, Hp. cbn [bind].
  rewrite (traverse_ok _ (region_aggregate ir iu iv ip (rows view)));
    [reflexivity|].
  intros k _. rewrite !group_members. unfold series_sum, series_mean.
  rewrite !numeric_values_numbers
    by (eapply Forall_incl; [apply members_incl | eassumption]).
  reflexivity.
Qed.




(** * Further properties of the page *)

(** ** More on the order of binary64 numbers *)

Lemma leb_positive (m1 m2 : positive) (e1 e2 : Z) :
  Float64.leb (S754_finite false m1 e1) (S754_finite false m2 e2) = true <->
  (e1 < e2)%Z \/ (e1 = e2 /\ (m1 <= m2)%positive).
Proof.
  unfold Float64.leb, SFleb, SFcompare.
  change (Pos.compare_cont Eq m1 m2) with (Pos.compare m1 m2).
  destruct (Z.compare_spec e1 e2); [|split; [auto | reflexivity]|split; [discriminate | lia]].
  destruct (Pos.compare_spec m1 m2); split; try reflexivity; try lia;
    try discriminate.
Qed.

Lemma leb_negative (m1 m2 : positive) (e1 e2 : Z) :
  Float64.leb (S754_finite true m1 e1) (S754_finite true m2 e2) = true <->
  (e2 < e1)%Z \/ (e1 = e2 /\ (m2 <= m1)%positive).
Proof.
  unfold Float64.leb, SFleb, SFcompare.
  change (Pos.compare_cont Eq m1 m2) with (Pos.compare m1 m2).
  destruct (Z.compare_spec e1 e2); [|split; [discriminate | lia]|split; [auto | reflexivity]].
  destruct (Pos.compare_spec m1 m2); split; try reflexivity; try lia;
    try discriminate.
Qed.

Lemma ltb_positive (m1 m2 : positive) (e1 e2 : Z) :
  Float64.ltb (S754_finite false m1 e1) (S754_finite false m2 e2) = true <->
  (e1 < e2)%Z \/ (e1 = e2 /\ (m1 < m2)%positive).
Proof.
  unfold Float64.ltb, SFltb, SFcompare.
  change (Pos.compare_cont Eq m1 m2) with (Pos.compare m1 m2).
  destruct (Z.compare_spec e1 e2); [|split; [auto | reflexivity]|split; [discriminate | lia]].
  destruct (Pos.compare_spec m1 m2); split; try reflexivity; try lia;
    try discriminate.
Qed.

Lemma ltb_negative (m1 m2 : positive) (e1 e2 : Z) :
  Float64.ltb (S754_finite true m1 e1) (S754_finite true m2 e2) = true <->
  (e2 < e1)%Z \/ (e1 = e2 /\ (m2 < m1)%positive).
Proof.
  unfold Float64.ltb, SFltb, SFcompare.
  change (Pos.compare_cont Eq m1 m2) with (Pos.compare m1 m2).
  destruct (Z.compare_spec e1 e2); [|split; [discriminate | lia]|split; [auto | reflexivity]].
  destruct (Pos.compare_spec m1 m2); split; try reflexivity; try lia;
    try discriminate.
Qed.

Ltac float_order :=
  first
    [ rewrite ?leb_positive, ?leb_negative, ?ltb_positive, ?ltb_negative; lia
    | unfold Float64.leb, Float64.ltb, SFleb, SFltb; simpl;
      intros; first [reflexivity | discriminate | assumption] ].

Lemma leb_trans (x y z : float64) :
  Float64.leb x y = true -> Float64.leb y z = true -> Float64.leb x z = true.
Proof.
  destruct x as [sx|sx| |sx mx ex], y as [sy|sy| |sy my ey],
    z as [sz|sz| |sz mz ez];
    try destruct sx; try destruct sy; try destruct sz; float_order.
Qed.

Lemma leb_ltb_trans (x y z : float64) :
  Float64.leb x y = true -> Float64.ltb y z = true -> Float64.ltb x z = true.
Proof.
  destruct x as [sx|sx| |sx mx ex], y as [sy|sy| |sy my ey],
    z as [sz|sz| |sz mz ez];
    try destruct sx; try destruct sy; try destruct sz; float_order.
Qed.

Lemma ltb_leb (x y : float64) :
  Float64.ltb x y = true -> Float64.leb x y = true.
Proof.
  unfold Float64.leb, Float64.ltb, SFleb, SFltb.
  now destruct (SFcompare x y) as [[| |]|].
Qed.

Lemma not_ltb_leb (x y : float64) :
  Float64.is_nan x = false -> Float64.is_nan y = false ->
  Float64.ltb x y = false -> Float64.leb y x = true.
Proof.
  intros Hx Hy. unfold Float64.leb, Float64.ltb, SFleb, SFltb.
  rewrite (SFcompare_antisym x y).
  destruct (SFcompare_defined x y Hx Hy) as (c & ->). now destruct c.
Qed.


(** ** Column labels (line 26) *)

Lemma clean_char_spec (c : ascii) :
  clean_char c <> " "%char /\
  is_lower (clean_char c) = false /\
  clean_char (clean_char c) = clean_char c /\
  (is_space (clean_char c) = true -> is_space c = true).
Proof.
  destruct c as [[] [] [] [] [] [] [] []]; vm_compute;
    repeat split; try discriminate; intros H; discriminate H.
Qed.

Lemma map_string_map_string (f g : ascii -> ascii) (s : string) :
  map_string f (map_string g s) = map_string (fun c => f (g c)) s.
Proof. induction s as [|c s IH]; simpl; [reflexivity | now rewrite IH]. Qed.


Lemma clean_column_chars (col : string) :
  clean_column col = map_string clean_char (strip col).
Proof.
  unfold clean_column, replace_space, upper. now rewrite map_string_map_string.
Qed.

Lemma in_map_string (f : ascii -> ascii) (s : string) (c : ascii) :
  In c (list_ascii_of_string (map_string f s)) ->
  exists c', c = f c'.
Proof.
  induction s as [|a s IH]; simpl; [contradiction|].
  intros [<-|H]; [now exists a | now apply IH].
Qed.











(** ** More on [load_data] *)

Section LoadMore.
Context {py : Builtins}.

Lemma coerce_column_ok (df : DataFrame) (name : string) (i : nat) :
  positions name (columns df) = [i] ->
  coerce_column df name
  = Ok {| columns := columns df; rows := map (coerce_at i) (rows df) |}.
Proof.
  intros Hi. unfold coerce_column, getitem, locate.
  rewrite (find_column_ok _ _ _ Hi). cbn [bind].
  unfold setitem. rewrite Hi. unfold to_numeric.
  now rewrite map_map, map2_map_r.
Qed.

Lemma coerce_column_absent (df : DataFrame) (name : string) :
  positions name (columns df) = [] ->
  coerce_column df name = Raise (key_error name).
Proof.
  intros Hi. unfold coerce_column, getitem, locate, find_column. now rewrite Hi.
Qed.

Lemma getitem_absent (df : DataFrame) (name : string) :
  positions name (columns df) = [] -> getitem df name = Raise (key_error name).
Proof. intros Hi. unfold getitem, locate, find_column. now rewrite Hi. Qed.

Lemma getitem_ok (df : DataFrame) (name : string) (i : nat) :
  positions name (columns df) = [i] ->
  getitem df name = Ok (map (cell_at i) (rows df)).
Proof.
  intros Hi. unfold getitem, locate. now rewrite (find_column_ok _ _ _ Hi).
Qed.

Lemma load_data_try_absent (raw : DataFrame) (before after : list string)
      (name : string) :
  required_columns = (before ++ name :: after)%list ->
  (forall n, In n before ->
             exists i, positions n (columns (clean_columns raw)) = [i]) ->
  positions name (columns (clean_columns raw)) = [] ->
  load_data_try (Ok raw) = Raise (key_error name).
Proof.
  intros Hreq Hbefore Hname. unfold load_data_try. cbn [bind].
  set (d0 := clean_columns raw) in *.
  assert (Step : forall d n (k : DataFrame -> result DataFrame),
             columns d = columns d0 ->
             (exists i, positions n (columns d0) = [i]) ->
             (forall d', columns d' = columns d0 -> k d' = Raise (key_error name)) ->
             bind (coerce_column d n) k = Raise (key_error name)).
  { intros d n k Hc (i & Hi) Hk. rewrite (coerce_column_ok d n i) by congruence.
    cbn [bind]. now apply Hk. }
  assert (Stop : forall d n (k : DataFrame -> result DataFrame),
             columns d = columns d0 -> n = name ->
             bind (coerce_column d n) k = Raise (key_error name)).
  { intros d n k Hc ->. rewrite coerce_column_absent by congruence. reflexivity. }
  unfold required_columns in Hreq.
  destruct before as [|b1 before]; cbn [app] in Hreq;
    injection Hreq as E1 Hreq; subst;
    [now apply Stop | apply Step; [reflexivity | apply Hbefore; now left |]];
    intros d1 H1.
  destruct before as [|b2 before]; cbn [app] in Hreq;
    injection Hreq as E2 Hreq; subst;
    [now apply Stop | apply Step; [exact H1 | apply Hbefore; right; now left |]];
    intros d2 H2.
  destruct before as [|b3 before]; cbn [app] in Hreq;
    injection Hreq as E3 Hreq; subst;
    [now apply Stop
    | apply Step; [exact H2 | apply Hbefore; right; right; now left |]];
    intros d3 H3.
  destruct before as [|b4 before]; cbn [app] in Hreq;
    injection Hreq as E4 Hreq; subst;
    [now apply Stop
    | apply Step; [exact H3 | apply Hbefore; right; right; right; now left |]];
    intros d4 H4.
  destruct before as [|b5 before]; cbn [app] in Hreq;
    injection Hreq as E5 Hreq; subst.
  - rewrite getitem_absent by congruence. reflexivity.
  - destruct (Hbefore "NOMBRE") as (i5 & Hi5); [do 4 right; now left|].
    rewrite (getitem_ok d4 "NOMBRE" i5) by congruence. cbn [bind].
    destruct before as [|b6 before]; cbn [app] in Hreq;
      injection Hreq as E6 Hreq; subst.
    + rewrite getitem_absent by congruence. reflexivity.
    + destruct before; discriminate Hreq.
Qed.

End LoadMore.

(** X2.  When one of the six columns [load_data] reads is absent after the
    labels are cleaned, and those read before it are there, loading ends
    with the one message that names the absent column, returns the empty
    frame, and the page is the closing error display. *)
Theorem absent_column_is_named
        {py : Builtins} (raw : DataFrame) (before after : list string)
        (name : string) :
  required_columns = (before ++ name :: after)%list ->
  (forall n, In n before ->
             exists i, positions n (columns (clean_columns raw)) = [i]) ->
  positions name (columns (clean_columns raw)) = [] ->
  load_data (Ok raw)
  = (["Ocurrió un error al cargar o procesar los datos: '" ++ name ++ "'"],
     empty_frame) /\
  exists msg, snd (main (Ok raw)) = ErrorDisplay msg.
Proof.
  intros Hreq Hbefore Hname.
  pose proof (load_data_try_absent raw before after name Hreq Hbefore Hname) as H.
  unfold main, load_data. rewrite H. split; [reflexivity | now eexists].
Qed.

(** X2, witness: a file with the units column only; VENTAS_TOTALES is the
    first column that is absent. *)
Lemma absent_column_is_named_witness :
  load_data (py := Sample.py) (Ok only_units)
  = (["Ocurrió un error al cargar o procesar los datos: 'VENTAS_TOTALES'"],
     empty_frame).
Proof.
  refine (proj1 (absent_column_is_named (py := Sample.py) only_units
                   ["UNIDADES_VENDIDAS"] _ "VENTAS_TOTALES" eq_refl _ _)).
  - intros n [<-|[]]. exists 0. vm_compute. reflexivity.
  - vm_compute. reflexivity.
Defined.


Lemma filter_map_swap {A B : Type} (f : A -> B) (p : B -> bool) (l : list A) :
  filter p (map f l) = map f (filter (fun a => p (f a)) l).
Proof.
  induction l as [|a l IH]; simpl; [reflexivity|].
  destruct (p (f a)); simpl; now rewrite IH.
Qed.

Lemma filter_ext_in {A : Type} (p q : A -> bool) (l : list A) :
  (forall a, In a l -> p a = q a) -> filter p l = filter q l.
Proof.
  induction l as [|a l IH]; intros H; simpl; [reflexivity|].
  rewrite (H a (or_introl eq_refl)), IH; [reflexivity|].
  intros b Hb. apply H. now right.
Qed.

Lemma positions_nil_iff (name : string) (cols : list string) :
  positions name cols = [] <-> ~ In name cols.
Proof.
  split.
  - intros H Hin. apply In_nth_error in Hin as (i & Hi).
    apply positions_spec in Hi. now rewrite H in Hi.
  - intros H. destruct (positions name cols) as [|i l] eqn:E; [reflexivity|].
    exfalso. apply H. assert (Hi : In i (positions name cols)) by (rewrite E; now left).
    apply positions_spec in Hi. eapply nth_error_In; eassumption.
Qed.

Lemma load_data_image {py : Builtins} (raw df : DataFrame) :
  load_data (Ok raw) = ([], df) ->
  exists p,
    has_layout (columns (clean_columns raw)) p /\
    columns df = with_vendedor (columns (clean_columns raw)) /\
    rows df = map (clean_row (columns (clean_columns raw)) p)
                  (filter (complete_in raw) (rows raw)) /\
    forall r i name,
      nth_error (columns (clean_columns raw)) i = Some name ->
      ~ In name written_columns ->
      cell_at i (clean_row (columns (clean_columns raw)) p r) = cell_at i r.
Proof.
  intros Hload.
  destruct (loaded_inv _ _ Hload) as (raw' & p & Hcsv' & HL & Hcols & Hrows).
  injection Hcsv' as <-.
  set (cols := columns (clean_columns raw)) in *.
  pose proof HL as (Hu & Hv & Hp & Hs & _).
  assert (Hkeep : filter (complete (key_positions p)) (map (clean_row cols p) (rows raw))
                  = map (clean_row cols p) (filter (complete_in raw) (rows raw))).
  { rewrite filter_map_swap. f_equal. apply filter_ext_in. intros r _.
    rewrite (complete_clean_row _ _ r HL). unfold complete_in, key_metrics.
    cbn [forallb].
    now rewrite (row_getitem_at _ r _ _ Hu), (row_getitem_at _ r _ _ Hv),
      (row_getitem_at _ r _ _ Hp). }
  exists p. split; [exact HL|]. split; [exact Hcols|]. split; [now rewrite Hrows|].
  intros r i name Hi Hname. apply positions_spec in Hi.
  assert (Hne : forall n j, In n written_columns -> positions n cols = [j] -> j <> i).
  { intros n j Hn Hj. apply (positions_disjoint n name cols j i).
    - intros ->. contradiction.
    - rewrite Hj. now left.
    - exact Hi. }
  unfold clean_row. rewrite cell_at_set_cells_other.
  + unfold coerced. rewrite !cell_at_coerce_at.
    rewrite (proj2 (Nat.eqb_neq _ _) (Hne "SALARIO" _ ltac:(simpl; auto) Hs)).
    rewrite (proj2 (Nat.eqb_neq _ _)
               (Hne "PORCENTAJE_DE_VENTAS" _ ltac:(simpl; auto) Hp)).
    rewrite (proj2 (Nat.eqb_neq _ _) (Hne "VENTAS_TOTALES" _ ltac:(simpl; auto) Hv)).
    rewrite (proj2 (Nat.eqb_neq _ _)
               (Hne "UNIDADES_VENDIDAS" _ ltac:(simpl; auto) Hu)).
    reflexivity.
  + unfold vendedor_positions.
    destruct (positions "VENDEDOR" cols) as [|a l] eqn:E.
    * intros [<-|[]]. apply positions_bound in Hi. lia.
    * rewrite <- E. intros Hin.
      apply (positions_disjoint "VENDEDOR" name cols i i); auto.
      intros <-. apply Hname. simpl. auto 6.
Qed.

(** X3.  When the file loads, the cleaned table holds the images of the
    rows that have a number under each key metric, in the order of the
    file; the image of a row keeps every cell that is not under one of the
    five labels [load_data] writes (ID and REGION among the kept); and the
    labels are the cleaned labels, with VENDEDOR added last unless a column
    of that label was there. *)
Theorem load_data_keeps_rows_and_other_columns
        {py : Builtins} (csv : result DataFrame) (df raw : DataFrame) :
  load_data csv = ([], df) -> csv = Ok raw ->
  (exists image,
     rows df = map image (filter (complete_in raw) (rows raw)) /\
     forall r i name,
       nth_error (columns (clean_columns raw)) i = Some name ->
       ~ In name written_columns ->
       cell_at i (image r) = cell_at i r) /\
  List.length (rows df) <= List.length (rows raw) /\
  (In "VENDEDOR" (columns (clean_columns raw)) ->
   columns df = columns (clean_columns raw)) /\
  (~ In "VENDEDOR" (columns (clean_columns raw)) ->
   columns df = (columns (clean_columns raw) ++ ["VENDEDOR"])%list).
Proof.
  intros Hload ->.
  destruct (load_data_image raw df Hload) as (p & _ & Hcols & Hrows & Hkeep).
  split; [|split; [|split]].
  - exists (clean_row (columns (clean_columns raw)) p). split; [exact Hrows|exact Hkeep].
  - rewrite Hrows, length_map. apply filter_length_le.
  - intros Hin. rewrite Hcols. unfold with_vendedor.
    destruct (positions "VENDEDOR" (columns (clean_columns raw))) eqn:E; [|reflexivity].
    apply positions_nil_iff in E. contradiction.
  - intros Hout. rewrite Hcols. unfold with_vendedor.
    apply positions_nil_iff in Hout. now rewrite Hout.
Qed.

(** X3, witness: the first sample file, whose third row has units that are
    no number; of its four rows three are kept. *)
Lemma load_data_keeps_rows_and_other_columns_witness :
  List.length (rows (snd (load_data (py := Sample.py) (Ok Example.vendedores))))
  <= List.length (rows Example.vendedores).
Proof.
  exact (proj1 (proj2 (load_data_keeps_rows_and_other_columns (py := Sample.py)
                         (Ok Example.vendedores) _ Example.vendedores
                         ltac:(vm_compute; reflexivity) eq_refl))).
Defined.

(** ** The top seller (lines 106-112) *)

(** [idxmax] over the numbers the rows hold at [iv], started at position [k]
    with the best place so far: the result holds a number that no row
    exceeds, and it is the first such place. *)
Lemma idxmax_from_rows (iv : nat) (rs : list row) :
  Forall (numeric_at iv) rs ->
  forall k best,
    (forall bi b, best = Some (bi, b) -> Float64.is_nan b = false) ->
    exists res,
      idxmax_from k best (map (cell_at iv) rs) = Ok res /\
      match res with
      | None => best = None /\ rs = []
      | Some (i, m) =>
          (forall r, In r rs -> Float64.leb (number_at iv r) m = true) /\
          (forall bi b, best = Some (bi, b) -> Float64.leb b m = true) /\
          ((best = Some (i, m) /\
            forall r, In r rs -> Float64.ltb m (number_at iv r) = false) \/
           (exists j r,
              i = k + j /\ nth_error rs j = Some r /\ number_at iv r = m /\
              (forall j' r', j' < j -> nth_error rs j' = Some r' ->
                             Float64.ltb (number_at iv r') m = true) /\
              (forall bi b, best = Some (bi, b) -> Float64.ltb b m = true)))
      end.
Proof.
  induction 1 as [|r rs Hr Hrs IH]; intros k best Hbest.
  - exists best. split; [reflexivity|]. destruct best as [[bi b]|]; [|now split].
    split; [intros r []|]. split.
    + intros bi' b' E. injection E as -> ->. apply leb_refl.
      now apply (Hbest bi').
    + left. split; [reflexivity | intros r []].
  - pose proof Hr as (x & Hx & Nx).
    assert (Ex : number_at iv r = x) by (unfold number_at; now rewrite Hx).
    cbn [map idxmax_from]. rewrite Hx, Nx.
    assert (Hnew : forall b0,
               (forall bi b, best = Some (bi, b) -> b = b0 /\ Float64.ltb b0 x = true) ->
               exists res,
                 idxmax_from (S k) (Some (k, x)) (map (cell_at iv) rs) = Ok res /\
                 match res with
                 | None => best = None /\ r :: rs = []
                 | Some (i, m) =>
                     (forall r0, In r0 (r :: rs) ->
                                 Float64.leb (number_at iv r0) m = true) /\
                     (forall bi b, best = Some (bi, b) -> Float64.leb b m = true) /\
                     ((best = Some (i, m) /\
                       forall r0, In r0 (r :: rs) ->
                                  Float64.ltb m (number_at iv r0) = false) \/
                      (exists j r0,
                         i = k + j /\ nth_error (r :: rs) j = Some r0 /\
                         number_at iv r0 = m /\
                         (forall j' r', j' < j -> nth_error (r :: rs) j' = Some r' ->
                                        Float64.ltb (number_at iv r') m = true) /\
                         (forall bi b, best = Some (bi, b) ->
                                       Float64.ltb b m = true)))
                 end).
    { intros b0 Hb0.
      destruct (IH (S k) (Some (k, x))) as (res & Hres & Hgood).
      { intros ? ? E. injection E as _ <-. exact Nx. }
      exists res. split; [exact Hres|].
      destruct res as [[i m]|]; [|destruct Hgood; discriminate].
      destruct Hgood as (Hall & Hb & Hwhere).
      assert (Hxm : Float64.leb x m = true) by now apply (Hb k).
      split; [intros r' [<-|Hin]; [now rewrite Ex | now apply Hall]|].
      split.
      { intros bi' b' E. destruct (Hb0 _ _ E) as [-> Hlt].
        apply (leb_trans b0 x m); [now apply ltb_leb | exact Hxm]. }
      right.
      destruct Hwhere as [[E Hnone]|(j & r' & Hi & Hj & Hm & Hbefore & Hlt)].
      - injection E as <- <-. exists 0, r. rewrite Nat.add_0_r.
        split; [reflexivity|]. split; [reflexivity|]. split; [exact Ex|].
        split; [intros j' r' Hj'; lia|].
        intros bi' b' E'. now destruct (Hb0 _ _ E') as [-> Hlt].
      - exists (S j), r'. split; [lia|]. split; [exact Hj|]. split; [exact Hm|].
        assert (Hxlt : Float64.ltb x m = true) by now apply (Hlt k).
        split.
        + intros [|j'] r'' Hj' Hn; cbn [nth_error] in Hn.
          * injection Hn as <-. now rewrite Ex.
          * apply (Hbefore j'); [lia | exact Hn].
        + intros bi' b' E. destruct (Hb0 _ _ E) as [-> Hlt'].
          apply (leb_ltb_trans b0 x m); [now apply ltb_leb | exact Hxlt]. }
    destruct best as [[bi b]|].
    + assert (Nb : Float64.is_nan b = false) by now apply (Hbest bi).
      destruct (Float64.ltb b x) eqn:Lt.
      * apply (Hnew b). intros bi' b' E. injection E as _ <-. now split.
      * assert (Hxb : Float64.leb x b = true) by now apply not_ltb_leb.
        destruct (IH (S k) (Some (bi, b))) as (res & Hres & Hgood).
        { intros ? ? E. injection E as _ <-. exact Nb. }
        exists res. split; [exact Hres|].
        destruct res as [[i m]|]; [|destruct Hgood; discriminate].
        destruct Hgood as (Hall & Hb & Hwhere).
        assert (Hbm : Float64.leb b m = true) by now apply (Hb bi).
        split.
        { intros r' [<-|Hin]; [|now apply Hall].
          rewrite Ex. now apply (leb_trans x b m). }
        split; [intros bi' b' E; injection E as _ <-; exact Hbm|].
        destruct Hwhere as [[E Hnone]|(j & r' & Hi & Hj & Hm & Hbefore & Hlt)].
        -- left. split; [exact E|]. injection E as _ <-.
           intros r' [<-|Hin]; [now rewrite Ex | now apply Hnone].
        -- right. exists (S j), r'. split; [lia|]. split; [exact Hj|].
           split; [exact Hm|]. split.
           ++ intros [|j'] r'' Hj' Hn; cbn [nth_error] in Hn.
              ** injection Hn as <-. rewrite Ex.
                 apply (leb_ltb_trans x b m); [exact Hxb | now apply (Hlt bi)].
              ** apply (Hbefore j'); [lia | exact Hn].
           ++ exact Hlt.
    + apply (Hnew x). intros ? ? E. discriminate E.
Qed.


Lemma located_columns (view : DataFrame) (name : string) (i : nat) :
  locate view name = Ok i -> columns view <> [].
Proof.
  unfold locate, find_column. destruct (columns view); [discriminate|].
  discriminate.
Qed.

(** X4.  On a view with rows whose VENTAS_TOTALES column holds numbers (as
    every view of a loaded table does), [max_sales_row] is a row of the view
    that no row exceeds in sales, and the first such row; the third metric
    shows its VENDEDOR and, as delta, its formatted sales. *)
Theorem top_seller_has_greatest_sales
        {py : Builtins} (view : DataFrame) (iv jv : nat) :
  locate view "VENTAS_TOTALES" = Ok iv ->
  locate view "VENDEDOR" = Ok jv ->
  Forall (numeric_at iv) (rows view) ->
  rows view <> [] ->
  exists i r,
    max_sales_row view = Ok r /\
    nth_error (rows view) i = Some r /\
    (forall r', In r' (rows view) ->
                Float64.leb (number_at iv r') (number_at iv r) = true) /\
    (forall i' r', i' < i -> nth_error (rows view) i' = Some r' ->
                   Float64.ltb (number_at iv r') (number_at iv r) = true) /\
    col3 view = Ok {| label := "Vendedor con Mayor Venta";
                      value := cell_at jv r;
                      delta := Some ("$" ++ float_format (number_at iv r) ",.0f") |}.
Proof.
  intros Hv Hj Hnum Hrows.
  destruct (idxmax_from_rows iv (rows view) Hnum 0 None) as (res & Hres & Hgood);
    [discriminate|].
  destruct res as [[i m]|]; [|now destruct Hgood].
  destruct Hgood as (Hall & _ & [[E _]|(j & r & Hi & Hnth & Hm & Hbefore & _)]);
    [discriminate|].
  simpl in Hi. subst i.
  assert (Hmax : max_sales_row view = Ok r).
  { unfold max_sales_row, getitem. rewrite Hv. cbn [bind]. unfold idxmax.
    match goal with
    | |- context [idxmax_from ?a ?b ?c] =>
        replace (idxmax_from a b c) with (Ok (Some (j, m)))
          by (symmetry; exact Hres)
    end.
    cbn [bind]. f_equal. now apply nth_error_nth. }
  exists j, r. rewrite <- Hm in Hall, Hbefore.
  split; [exact Hmax|]. split; [exact Hnth|]. split; [exact Hall|].
  split; [exact Hbefore|].
  unfold col3. replace (empty view) with false.
  - cbn [negb]. rewrite Hmax. cbn [bind]. unfold row_getitem.
    rewrite Hj, Hv. cbn [bind].
    assert (Hr : numeric_at iv r).
    { rewrite Forall_forall in Hnum. apply Hnum. eapply nth_error_In; eassumption. }
    destruct Hr as (x & Hx & _). unfold number_at. rewrite Hx. reflexivity.
  - unfold empty. pose proof (located_columns view _ _ Hv).
    destruct (columns view); [contradiction|]. now destruct (rows view).
Qed.

(** X4, witness: the sample view, whose VENTAS_TOTALES column is the seventh
    and whose VENDEDOR column the ninth. *)
Lemma top_seller_has_greatest_sales_witness :
  exists i r,
    max_sales_row View.sellers = Ok r /\
    nth_error (rows View.sellers) i = Some r /\
    col3 (py := Sample.py) View.sellers
    = Ok {| label := "Vendedor con Mayor Venta";
            value := cell_at 8 r;
            delta := Some ("$" ++ @float_format Sample.py (number_at 6 r) ",.0f") |}.
Proof.
  assert (Hnum : Forall (numeric_at 6) (rows View.sellers))
    by (repeat constructor; eexists; split; reflexivity).
  assert (Hrows : rows View.sellers <> []) by discriminate.
  destruct (top_seller_has_greatest_sales (py := Sample.py) View.sellers 6 8
              eq_refl eq_refl Hnum Hrows)
    as (i & r & Hmax & Hnth & _ & _ & Hcol).
  exists i, r. split; [exact Hmax | split; [exact Hnth | exact Hcol]].
Defined.

(** In the sample view Luis Mora and Eva Ruiz both sold 500; the metric
    names Luis Mora, the first of them. *)
Example top_seller_of_sample :
  col3 (py := Sample.py) View.sellers
  = Ok {| label := "Vendedor con Mayor Venta";
          value := Str "Luis Mora";
          delta := Some "$500" |}.
Proof. vm_compute. reflexivity. Qed.


(** ** More on the ranking (line 142) *)

Lemma descends_transitive (i : nat) : Relations_1.Transitive (descends i).
Proof. intros a b c Hab Hbc. unfold descends in *. now apply (leb_trans _ (number_at i b)). Qed.

Lemma StronglySorted_split {A : Type} (R : A -> A -> Prop) (l1 l2 : list A) :
  StronglySorted R (l1 ++ l2) ->
  forall a b, In a l1 -> In b l2 -> R a b.
Proof.
  induction l1 as [|x l1 IH]; intros Hs a b Ha Hb; [contradiction|].
  cbn [app] in Hs. inversion Hs as [|? ? Hs' Hall]; subst.
  destruct Ha as [<-|Ha].
  - rewrite Forall_forall in Hall. apply Hall, in_or_app. now right.
  - now apply IH.
Qed.

(** X5.  On a view whose PORCENTAJE_DE_VENTAS column holds numbers (as
    every view of a loaded table does), the ranking returns the [n] rows of
    greatest percentage: together with the rows it leaves out it is a
    rearrangement of the view, and no row left out has a percentage above
    that of a row returned.  When the view has at most [n] rows, none is
    left out. *)
Theorem top_sellers_are_the_greatest
        (view : DataFrame) (ip n : nat) :
  locate view "PORCENTAJE_DE_VENTAS" = Ok ip ->
  Forall (numeric_at ip) (rows view) ->
  exists top rest,
    top_sellers n view = Ok top /\
    Permutation (rows top ++ rest) (rows view) /\
    (forall r r', In r (rows top) -> In r' rest ->
                  Float64.leb (number_at ip r') (number_at ip r) = true) /\
    (List.length (rows view) <= n -> rest = []).
Proof.
  intros Hp Hnum.
  exists (head n {| columns := columns view; rows := sort_desc ip (rows view) |}),
         (skipn n (sort_desc ip (rows view))).
  split; [|split; [|split]].
  - unfold top_sellers. now rewrite (sort_values_desc_numeric view _ ip Hp Hnum).
  - cbn [head rows]. rewrite firstn_skipn. apply sort_desc_perm.
  - cbn [head rows]. intros r r' Hr Hr'.
    apply (StronglySorted_split (descends ip)
             (firstn n (sort_desc ip (rows view)))
             (skipn n (sort_desc ip (rows view)))); [|exact Hr | exact Hr'].
    rewrite firstn_skipn.
    apply Sorted_StronglySorted; [apply descends_transitive|].
    now apply sort_desc_sorted.
  - intros Hlen. apply skipn_all2.
    now rewrite (Permutation_length (sort_desc_perm ip (rows view))).
Qed.

(** X5, witness: the two best of the four rows of the sample view. *)
Lemma top_sellers_are_the_greatest_witness :
  exists top rest,
    top_sellers 2 View.sellers = Ok top /\
    Permutation (rows top ++ rest) (rows View.sellers).
Proof.
  assert (Hnum : Forall (numeric_at 7) (rows View.sellers))
    by (repeat constructor; eexists; split; reflexivity).
  destruct (top_sellers_are_the_greatest View.sellers 7 2 eq_refl Hnum)
    as (top & rest & Htop & Hperm & _).
  exists top, rest. split; [exact Htop | exact Hperm].
Defined.


(** ** The sidebar (lines 59 and 73-77) *)

Lemma text_cell (c : cell) : is_num c = false -> exists s, c = Str s.
Proof. destruct c as [s|x]; [now exists s | discriminate]. Qed.

Lemma cell_eqb_same (c : cell) : cell_eqb c c = true.
Proof.
  destruct c as [s|x]; simpl; [apply String.eqb_refl|].
  destruct (Float64.is_nan x) eqn:E; [now rewrite orb_true_r|].
  pose proof (cell_eqb_refl (Num x) E) as H. simpl in H. now rewrite E in H.
Qed.

Lemma series_unique_from_sound (seen : list cell) (s : series) (c : cell) :
  In c (series_unique_from seen s) -> In c s /\ isin c seen = false.
Proof.
  revert seen; induction s as [|a s IH]; simpl; intros seen H; [contradiction|].
  destruct (isin a seen) eqn:E.
  - destruct (IH _ H); auto.
  - destruct H as [<-|H]; [auto|]. destruct (IH _ H) as [H1 H2].
    split; [auto|]. unfold isin in H2. simpl in H2.
    now apply orb_false_iff in H2.
Qed.

Lemma series_unique_from_complete (seen : list cell) (s : series) (c : cell) :
  In c s -> isin c seen = true \/ isin c (series_unique_from seen s) = true.
Proof.
  revert seen; induction s as [|a s IH]; simpl; intros seen H; [contradiction|].
  destruct (isin a seen) eqn:E.
  - destruct H as [<-|H]; [now left | now apply IH].
  - unfold isin at 2. cbn [existsb].
    destruct H as [<-|H]; [right; now rewrite cell_eqb_same|].
    destruct (IH (a :: seen) H) as [H'|H'].
    + unfold isin in H'. cbn [existsb] in H'. apply orb_true_iff in H' as [H'|H'].
      * right. now rewrite H'.
      * now left.
    + right. unfold isin in H'. rewrite H'. apply orb_true_r.
Qed.

Lemma series_unique_from_NoDup (seen : list cell) (s : series) :
  NoDup (series_unique_from seen s).
Proof.
  revert seen; induction s as [|a s IH]; simpl; intros seen; [constructor|].
  destruct (isin a seen) eqn:E; [apply IH|].
  constructor; [|apply IH]. intros H.
  apply series_unique_from_sound in H as [_ H].
  unfold isin in H. cbn [existsb] in H. now rewrite cell_eqb_same in H.
Qed.

Lemma series_unique_text (s : series) (c : cell) :
  is_num c = false -> (In c (series_unique s) <-> In c s).
Proof.
  intros Hc. split.
  - intros H. now apply series_unique_from_sound in H.
  - intros H. destruct (series_unique_from_complete [] s c H) as [H'|H'];
      [discriminate|].
    destruct (text_cell c Hc) as (x & ->). now apply isin_str.
Qed.

Lemma insert_asc_text (k : cell) (l : list cell) :
  is_num k = false -> Forall (fun c => is_num c = false) l ->
  Sorted ascends l -> Sorted ascends (insert_asc k l).
Proof.
  intros Hk Hl Hs. induction Hs as [|a l Hs IH Hd]; simpl.
  - repeat constructor.
  - inversion Hl as [|? ? Ha Hl']; subst.
    destruct (cell_leb k a) eqn:E.
    + constructor; [now constructor|]. constructor. exact E.
    + assert (E' : ascends a k).
      { destruct (text_cell k Hk) as (x & ->), (text_cell a Ha) as (y & ->).
        unfold ascends. simpl in *.
        destruct (String.leb_total x y); congruence. }
      constructor; [now apply IH|].
      destruct l as [|b l]; simpl.
      * now constructor.
      * destruct (cell_leb k b); constructor; [exact E' | now inversion Hd].
Qed.

Lemma sort_asc_text (l : list cell) :
  Forall (fun c => is_num c = false) l -> Sorted ascends (sort_asc l).
Proof.
  induction 1 as [|k l Hk Hl IH]; simpl; [constructor|].
  apply insert_asc_text; [exact Hk | | exact IH].
  rewrite Forall_forall in *. intros c Hc. apply Hl.
  now apply (Permutation_in _ (sort_asc_perm l)).
Qed.

Lemma comparable_text (l : list cell) :
  Forall (fun c => is_num c = false) l -> comparable l = true.
Proof.
  intros H. unfold comparable. apply orb_true_iff. right.
  apply forallb_forall. rewrite Forall_forall in H. intros c Hc.
  now rewrite (H c Hc).
Qed.

Lemma comparable_mixed (l : list cell) (s : string) (x : float64) :
  In (Str s) l -> In (Num x) l -> comparable l = false.
Proof.
  intros Hs Hx. unfold comparable. apply orb_false_iff. split.
  - destruct (forallb is_num l) eqn:E; [|reflexivity].
    rewrite forallb_forall in E. now specialize (E _ Hs).
  - destruct (forallb (fun c => negb (is_num c)) l) eqn:E; [|reflexivity].
    rewrite forallb_forall in E. now specialize (E _ Hx).
Qed.

(** The sorted distinct values of a column of texts. *)
Lemma sorted_unique_text (s : series) :
  Forall (fun c => is_num c = false) s ->
  exists l,
    py_sorted (series_unique s) = Ok l /\
    NoDup l /\ Sorted ascends l /\
    Forall (fun c => is_num c = false) l /\
    forall c, In c l <-> In c s.
Proof.
  intros Hs.
  assert (Hu : Forall (fun c => is_num c = false) (series_unique s)).
  { rewrite Forall_forall in *. intros c Hc. apply Hs.
    now apply series_unique_from_sound in Hc. }
  assert (Hin : forall c, In c (sort_asc (series_unique s)) <-> In c s).
  { intros c. split.
    - intros H. apply (Permutation_in _ (sort_asc_perm _)) in H.
      now apply series_unique_from_sound in H.
    - intros H. apply (Permutation_in _ (Permutation_sym (sort_asc_perm _))).
      apply series_unique_text; [|exact H].
      rewrite Forall_forall in Hs. now apply Hs. }
  exists (sort_asc (series_unique s)). split; [|split; [|split; [|split]]].
  - unfold py_sorted. now rewrite (comparable_text _ Hu).
  - apply (Permutation_NoDup (Permutation_sym (sort_asc_perm _))).
    apply series_unique_from_NoDup.
  - now apply sort_asc_text.
  - rewrite Forall_forall in *. intros c Hc. apply Hs. now apply Hin.
  - exact Hin.
Qed.

Lemma text_column (i : nat) (rs : list row) :
  Forall (text_at i) rs -> Forall (fun c => is_num c = false) (map (cell_at i) rs).
Proof.
  intros H. rewrite Forall_forall in *. intros c Hc.
  apply in_map_iff in Hc as (r & <- & Hr). now destruct (H r Hr) as (s & ->).
Qed.

Lemma locate_getitem (df : DataFrame) (name : string) (i : nat) :
  locate df name = Ok i -> getitem df name = Ok (map (cell_at i) (rows df)).
Proof. intros H. unfold getitem. now rewrite H. Qed.

(** X6.  When every REGION cell of the table is a text, the multiselect
    offers 'TODAS' first and then the regions of the table: each once, in
    increasing order, and no other value.  Choosing one offered option alone
    never gives an empty view, and choosing a region gives exactly the rows
    of that region. *)
Theorem all_regions_lists_each_region_once (df : DataFrame) (i : nat) :
  locate df "REGION" = Ok i ->
  Forall (text_at i) (rows df) ->
  exists regions,
    all_regions df = Ok (Str "TODAS" :: regions) /\
    NoDup regions /\
    Sorted ascends regions /\
    (forall c, In c regions <-> exists r, In r (rows df) /\ cell_at i r = c) /\
    (forall c, In c regions ->
       exists view,
         df_filtered_region df [c] = Ok view /\
         rows view <> [] /\
         (c <> Str "TODAS" ->
          forall r, In r (rows view) <-> In r (rows df) /\ cell_at i r = c)).
Proof.
  intros Hi Htext.
  destruct (sorted_unique_text _ (text_column i _ Htext))
    as (l & Hsorted & Hnd & Hasc & Htxt & Hin).
  assert (Hrows : forall c, In c l <-> exists r, In r (rows df) /\ cell_at i r = c).
  { intros c. rewrite Hin, in_map_iff. split; intros (r & H1 & H2); exists r; auto. }
  exists l. split; [|split; [|split; [|split]]]; auto.
  - unfold all_regions. rewrite (locate_getitem _ _ _ Hi). cbn [bind].
    now rewrite Hsorted.
  - intros c Hc. destruct (proj1 (Hrows c) Hc) as (r0 & Hr0 & Hc0).
    rewrite Forall_forall in Htxt. destruct (text_cell c (Htxt c Hc)) as (s & ->).
    destruct (String.eqb "TODAS" s) eqn:E.
    + apply String.eqb_eq in E as <-. exists df. split; [|split].
      * unfold df_filtered_region, isin. cbn [existsb cell_eqb].
        now rewrite String.eqb_refl.
      * intros Hnil. rewrite Hnil in Hr0. contradiction.
      * intros H. now contradiction H.
    + eexists. split; [|split].
      * apply df_filtered_region_some; [|exact Hi].
        unfold isin. cbn [existsb cell_eqb]. now rewrite E.
      * cbn [rows]. intros Hnil.
        assert (Hr : In r0 (filter (fun r => isin (cell_at i r) [Str s]) (rows df))).
        { apply filter_In. split; [exact Hr0|]. rewrite Hc0.
          apply isin_str. now left. }
        rewrite Hnil in Hr. contradiction.
      * intros _ r. cbn [rows]. rewrite filter_In.
        rewrite Forall_forall in Htext.
        split; intros (Hr & H); (split; [exact Hr|]).
        -- destruct (Htext r Hr) as (x & Hx). rewrite Hx in *.
           apply isin_str in H as [H|[]]. now symmetry.
        -- rewrite H. apply isin_str. now left.
Qed.

(** X6, witness: the sample view offers 'TODAS', 'Norte' and 'Sur'. *)
Lemma all_regions_lists_each_region_once_witness :
  exists regions,
    all_regions View.sellers = Ok (Str "TODAS" :: regions) /\ NoDup regions.
Proof.
  assert (Htext : Forall (text_at 3) (rows View.sellers))
    by (repeat constructor; eexists; reflexivity).
  destruct (all_regions_lists_each_region_once View.sellers 3 eq_refl Htext)
    as (regions & Hall & Hnd & _).
  exists regions. split; [exact Hall | exact Hnd].
Defined.

Example regions_of_sample :
  all_regions View.sellers = Ok [Str "TODAS"; Str "Norte"; Str "Sur"].
Proof. vm_compute. reflexivity. Qed.

(** A text and a number (or a missing value) in one column stop [sorted]. *)
Lemma py_sorted_mixed (col : series) (s : string) (x : float64) :
  In (Str s) col -> In (Num x) col ->
  exists msg, py_sorted (series_unique col) = Raise (Exception msg).
Proof.
  intros Hs Hx.
  assert (H1 : In (Str s) (series_unique col))
    by (now apply series_unique_text).
  destruct (series_unique_from_complete [] col (Num x) Hx) as [H2|H2];
    [discriminate|].
  apply existsb_exists in H2 as (k & Hk & Heq).
  destruct k as [t|y]; [discriminate|].
  unfold py_sorted. rewrite (comparable_mixed _ s y H1 Hk). eauto.
Qed.

(** X7.  [load_data] does not look at the REGION column, so an empty REGION
    cell survives the cleaning; as soon as another row names its region,
    building the options of the multiselect raises, outside every [try] of
    the script: Python cannot order the text and the missing value (or the
    number). *)
Theorem empty_region_cell_stops_the_sidebar
        {py : Builtins} (raw df : DataFrame) (i : nat) (r r' : row)
        (s : string) (x : float64) :
  load_data (Ok raw) = ([], df) ->
  positions "REGION" (columns (clean_columns raw)) = [i] ->
  In r (rows raw) -> complete_in raw r = true -> cell_at i r = Str s ->
  In r' (rows raw) -> complete_in raw r' = true -> cell_at i r' = Num x ->
  exists msg, all_regions df = Raise (Exception msg).
Proof.
  intros Hload Hi Hr Hcr Hs Hr' Hcr' Hx.
  destruct (load_data_image raw df Hload) as (p & _ & Hcols & Hrows & Hkeep).
  assert (Hpos : positions "REGION" (columns df) = [i]).
  { rewrite Hcols, positions_with_vendedor; [exact Hi | discriminate]. }
  assert (Hname : nth_error (columns (clean_columns raw)) i = Some "REGION").
  { apply positions_spec. rewrite Hi. now left. }
  assert (Hout : ~ In "REGION" written_columns).
  { simpl. intros [H|[H|[H|[H|[H|[]]]]]]; discriminate. }
  unfold all_regions. rewrite (getitem_ok _ _ _ Hpos). cbn [bind].
  assert (Hmixed : exists msg, py_sorted (series_unique (map (cell_at i) (rows df)))
                               = Raise (Exception msg)).
  2: { destruct Hmixed as (msg & Hmsg). rewrite Hmsg. cbn [bind]. eauto. }
  apply (py_sorted_mixed (map (cell_at i) (rows df)) s x).
  - apply in_map_iff.
    exists (clean_row (columns (clean_columns raw)) p r). split.
    + now rewrite (Hkeep r i _ Hname Hout).
    + rewrite Hrows. apply in_map, filter_In. now split.
  - apply in_map_iff.
    exists (clean_row (columns (clean_columns raw)) p r'). split.
    + now rewrite (Hkeep r' i _ Hname Hout).
    + rewrite Hrows. apply in_map, filter_In. now split.
Qed.

(** X7, witness: a file of two sellers, the second without region. *)
Lemma empty_region_cell_stops_the_sidebar_witness :
  exists msg,
    all_regions (snd (load_data (py := Sample.py) (Ok unassigned)))
    = Raise (Exception msg).
Proof.
  refine (empty_region_cell_stops_the_sidebar (py := Sample.py)
            unassigned _ 3
            (nth 0 (rows unassigned) []) (nth 1 (rows unassigned) [])
            "Norte" Float64.nan
            ltac:(vm_compute; reflexivity) ltac:(vm_compute; reflexivity)
            _ ltac:(vm_compute; reflexivity) ltac:(vm_compute; reflexivity)
            _ ltac:(vm_compute; reflexivity) ltac:(vm_compute; reflexivity)).
  - simpl. auto.
  - simpl. auto.
Defined.


(** ** The seller of the detail tab (lines 73-77 and 156-158) *)







(** ** The number of sellers (line 93) and the columns the page needs *)

Lemma cell_eqb_sym (a b : cell) : cell_eqb a b = cell_eqb b a.
Proof.
  destruct a as [s|x], b as [t|y]; simpl; try reflexivity.
  - apply String.eqb_sym.
  - f_equal; [|apply andb_comm].
    unfold Float64.eqb, SFeqb. rewrite (SFcompare_antisym y x).
    destruct (SFcompare y x) as [[]|]; reflexivity.
Qed.

Lemma unique_from_length (seen : list cell) (s : series) :
  List.length (unique_from seen s) <= List.length s.
Proof.
  revert seen; induction s as [|c s IH]; simpl; intros seen; [lia|].
  destruct (isna c || isin c seen); simpl.
  - specialize (IH seen). lia.
  - specialize (IH (c :: seen)). lia.
Qed.

Lemma unique_from_missing (seen : list cell) (s : series) :
  Forall (fun c => isna c = true) s -> unique_from seen s = [].
Proof.
  induction 1 as [|c s Hc Hs IH]; simpl; [reflexivity|]. now rewrite Hc.
Qed.

Lemma unique_from_distinct (seen : list cell) (s : series) :
  distinct s = true -> (forall c, In c s -> isin c seen = false) ->
  unique_from seen s = s.
Proof.
  revert seen; induction s as [|c s IH]; simpl; intros seen Hd Hseen;
    [reflexivity|].
  apply andb_true_iff in Hd as [Hd Hs]. apply andb_true_iff in Hd as [Hc Hout].
  unfold notna in Hc. apply negb_true_iff in Hc, Hout.
  rewrite Hc, (Hseen c (or_introl eq_refl)). simpl. f_equal.
  apply IH; [exact Hs|]. intros c' Hc'.
  unfold isin. cbn [existsb]. apply orb_false_iff. split.
  - rewrite cell_eqb_sym. unfold isin in Hout.
    destruct (cell_eqb c c') eqn:E; [|reflexivity].
    rewrite <- Hout. symmetry. apply existsb_exists. now exists c'.
  - apply Hseen. now right.
Qed.

(** X9.  The number of sellers of a view is at most its number of rows; it
    is the number of rows when no ID is missing and no two are equal, and it
    is zero exactly when every ID of the view is missing. *)
Theorem num_vendedores_counts_ids (view : DataFrame) (i : nat) :
  locate view "ID" = Ok i ->
  exists n,
    num_vendedores view = Ok n /\
    n <= List.length (rows view) /\
    (distinct (map (cell_at i) (rows view)) = true ->
     n = List.length (rows view)) /\
    (n = 0 <-> forall r, In r (rows view) -> isna (cell_at i r) = true).
Proof.
  intros Hi. exists (List.length (unique (map (cell_at i) (rows view)))).
  split; [|split; [|split]].
  - unfold num_vendedores. now rewrite (locate_getitem _ _ _ Hi).
  - unfold unique.
    pose proof (unique_from_length [] (map (cell_at i) (rows view))) as H.
    now rewrite length_map in H.
  - intros Hd. unfold unique. rewrite unique_from_distinct; auto.
    apply length_map.
  - split.
    + intros Hn r Hr. apply length_zero_iff_nil in Hn.
      destruct (isna (cell_at i r)) eqn:E; [reflexivity|].
      destruct (unique_from_complete [] (map (cell_at i) (rows view))
                  (cell_at i r) (in_map _ _ _ Hr) E) as [H|H];
        [discriminate|].
      fold (unique (map (cell_at i) (rows view))) in H. now rewrite Hn in H.
    + intros H. unfold unique. rewrite unique_from_missing; [reflexivity|].
      apply Forall_forall. intros c Hc.
      apply in_map_iff in Hc as (r & <- & Hr). now apply H.
Qed.

(** X9, witness: the four sellers of the sample view. *)
Lemma num_vendedores_counts_ids_witness :
  exists n, num_vendedores View.sellers = Ok n /\ n <= 4.
Proof.
  destruct (num_vendedores_counts_ids View.sellers 0 eq_refl)
    as (n & Hn & Hle & _).
  exists n. split; [exact Hn | exact Hle].
Defined.

(** X10.  [load_data] reads neither REGION nor ID, so a file without one of
    them loads; the page then raises [KeyError] outside every [try]: at
    line 59 without REGION, and at line 93, for every selection of regions,
    without ID. *)
Theorem region_and_id_are_needed_after_the_load
        {py : Builtins} (raw df : DataFrame) :
  load_data (Ok raw) = ([], df) ->
  (~ In "REGION" (columns (clean_columns raw)) ->
   all_regions df = Raise (key_error "REGION")) /\
  (~ In "ID" (columns (clean_columns raw)) ->
   forall selected_regions view,
     df_filtered_region df selected_regions = Ok view ->
     num_vendedores view = Raise (key_error "ID")).
Proof.
  intros Hload.
  destruct (load_data_image raw df Hload) as (p & _ & Hcols & _).
  split.
  - intros Hout. unfold all_regions. rewrite getitem_absent; [reflexivity|].
    rewrite Hcols, positions_with_vendedor by discriminate.
    now apply positions_nil_iff.
  - intros Hout selected_regions view Hview.
    destruct (filtered_rows_incl _ _ _ Hview) as [Hc _].
    unfold num_vendedores. rewrite getitem_absent; [reflexivity|].
    rewrite Hc, Hcols, positions_with_vendedor by discriminate.
    now apply positions_nil_iff.
Qed.

(** X10, witness: a file with the six columns [load_data] reads. *)
Lemma region_and_id_are_needed_after_the_load_witness :
  all_regions (snd (load_data (py := Sample.py) (Ok bare)))
  = Raise (key_error "REGION").
Proof.
  refine (proj1 (region_and_id_are_needed_after_the_load (py := Sample.py)
                   bare _ ltac:(vm_compute; reflexivity)) _).
  vm_compute. intros H; repeat (destruct H as [H|H]; [discriminate|]). exact H.
Defined.


(** ** The table tab (lines 193-202) *)

Lemma clean_column_upper (col : string) (c : ascii) :
  In c (list_ascii_of_string (clean_column col)) -> is_lower c = false.
Proof.
  rewrite clean_column_chars. intros Hc.
  apply in_map_string in Hc as (c' & ->). apply clean_char_spec.
Qed.

Lemma in_with_vendedor (cols : list string) (c : string) :
  In c (with_vendedor cols) -> In c cols \/ c = "VENDEDOR".
Proof.
  unfold with_vendedor. destruct (positions "VENDEDOR" cols); [|now left].
  intros H. apply in_app_or in H as [H|[<-|[]]]; auto.
Qed.

(** No label of a loaded table is one of the labels the table tab shows. *)
Lemma loaded_labels_not_displayed {py : Builtins} (csv : result DataFrame)
      (df : DataFrame) (c : string) :
  load_data csv = ([], df) ->
  In c (columns df) -> ~ In c (map snd columns_to_display).
Proof.
  intros Hload Hc Hin.
  destruct (loaded_inv _ _ Hload) as (raw & p & _ & _ & Hcols & _).
  rewrite Hcols in Hc.
  assert (Hlow : existsb is_lower (list_ascii_of_string c) = true).
  { simpl in Hin.
    repeat (destruct Hin as [<-|Hin]; [vm_compute; reflexivity|]).
    contradiction. }
  apply existsb_exists in Hlow as (ch & Hch & Hl).
  apply in_with_vendedor in Hc as [Hc| ->].
  - cbn [clean_columns columns] in Hc. apply in_map_iff in Hc as (col & <- & _).
    now rewrite (clean_column_upper col ch Hch) in Hl.
  - simpl in Hch.
    repeat (destruct Hch as [<-|Hch]; [discriminate|]). contradiction.
Qed.

Lemma positions_from_map (f : string -> string) (k v : string)
      (cols : list string) (n : nat) :
  (forall c, In c cols -> String.eqb (f c) v = String.eqb c k) ->
  positions_from n v (map f cols) = positions_from n k cols.
Proof.
  revert n; induction cols as [|c cols IH]; intros n H; [reflexivity|].
  cbn [map positions_from]. rewrite (H c (or_introl eq_refl)).
  rewrite IH; [reflexivity|]. intros c' Hc'. apply H. now right.
Qed.

Lemma renamed_label (c k v : string) :
  ~ In c (map snd columns_to_display) ->
  In (k, v) columns_to_display ->
  String.eqb (match dict_get columns_to_display c with
              | Some c' => c'
              | None => c
              end) v
  = String.eqb c k.
Proof.
  intros Hc Hin.
  assert (Hv : String.eqb c v = false).
  { apply String.eqb_neq. intros ->. apply Hc.
    apply in_map_iff. now exists (k, v). }
  unfold columns_to_display in *. cbn [dict_get].
  repeat match goal with
         | |- context [String.eqb ?key c] =>
             let E := fresh "E" in
             destruct (String.eqb key c) eqn:E;
             [ apply String.eqb_eq in E; subst c;
               simpl in Hin;
               repeat (destruct Hin as [Hin|Hin];
                       [injection Hin as <- <-; vm_compute; reflexivity|]);
               contradiction
             | rewrite String.eqb_sym in E ]
         end.
  rewrite Hv. simpl in Hin.
  repeat (destruct Hin as [Hin|Hin];
          [injection Hin as <- <-; symmetry; assumption|]).
  contradiction.
Qed.

Lemma positions_renamed (view : DataFrame) (k v : string) :
  (forall c, In c (columns view) -> ~ In c (map snd columns_to_display)) ->
  In (k, v) columns_to_display ->
  positions v (columns (rename columns_to_display view))
  = positions k (columns view).
Proof.
  intros Hc Hin. unfold positions, rename. cbn [columns].
  apply positions_from_map. intros c Hcin.
  apply renamed_label; [now apply Hc | exact Hin].
Qed.

Lemma nth_located (cols : list string) (name : string) (i : nat) :
  positions name cols = [i] -> nth i cols "" = name.
Proof.
  intros H. apply nth_error_nth. apply positions_spec. rewrite H. now left.
Qed.

Lemma df_display_located (view : DataFrame) (ir jv iid isal iu iv ip : nat) :
  (forall c, In c (columns view) -> ~ In c (map snd columns_to_display)) ->
  positions "REGION" (columns view) = [ir] ->
  positions "VENDEDOR" (columns view) = [jv] ->
  positions "ID" (columns view) = [iid] ->
  positions "SALARIO" (columns view) = [isal] ->
  positions "UNIDADES_VENDIDAS" (columns view) = [iu] ->
  positions "VENTAS_TOTALES" (columns view) = [iv] ->
  positions "PORCENTAJE_DE_VENTAS" (columns view) = [ip] ->
  df_display view
  = Ok {| columns := ["Región"; "Nombre Completo"; "ID Vendedor";
                      "Salario (USD)"; "Unidades Vendidas";
                      "Ventas Totales (USD)"; "Porcentaje de Ventas"];
          rows := map (project [ir; jv; iid; isal; iu; iv; ip]) (rows view) |}.
Proof.
  intros Hclean Hr Hv Hid Hs' Hu' Hve' Hp'.
  assert (Hren : forall k v, In (k, v) columns_to_display ->
                   positions v (columns (rename columns_to_display view))
                   = positions k (columns view))
    by (intros k v; now apply positions_renamed).
  pose proof (Hren "REGION" "Región" ltac:(simpl; auto)) as R1.
  pose proof (Hren "VENDEDOR" "Nombre Completo" ltac:(simpl; auto)) as R2.
  pose proof (Hren "ID" "ID Vendedor" ltac:(simpl; auto)) as R3.
  pose proof (Hren "SALARIO" "Salario (USD)" ltac:(simpl; auto)) as R4.
  pose proof (Hren "UNIDADES_VENDIDAS" "Unidades Vendidas"
                ltac:(simpl; auto 6)) as R5.
  pose proof (Hren "VENTAS_TOTALES" "Ventas Totales (USD)"
                ltac:(simpl; auto 7)) as R6.
  pose proof (Hren "PORCENTAJE_DE_VENTAS" "Porcentaje de Ventas"
                ltac:(simpl; auto 8)) as R7.
  rewrite Hr in R1. rewrite Hv in R2. rewrite Hid in R3. rewrite Hs' in R4.
  rewrite Hu' in R5. rewrite Hve' in R6. rewrite Hp' in R7.
  unfold df_display, select_columns.
  cbn [map snd columns_to_display filter flat_map].
  rewrite R1, R2, R3, R4, R5, R6, R7. cbn [app map].
  rewrite (nth_located _ _ _ R1), (nth_located _ _ _ R2),
    (nth_located _ _ _ R3), (nth_located _ _ _ R4), (nth_located _ _ _ R5),
    (nth_located _ _ _ R6), (nth_located _ _ _ R7).
  reflexivity.
Qed.

(** The columns [load_data] read are where it read them in every view. *)
Lemma loaded_view_layout {py : Builtins} (csv : result DataFrame)
      (df view : DataFrame) (selected_regions : list cell) :
  load_data csv = ([], df) ->
  df_filtered_region df selected_regions = Ok view ->
  (forall c, In c (columns view) -> ~ In c (map snd columns_to_display)) /\
  exists isal iu iv ip,
    positions "SALARIO" (columns view) = [isal] /\
    positions "UNIDADES_VENDIDAS" (columns view) = [iu] /\
    positions "VENTAS_TOTALES" (columns view) = [iv] /\
    positions "PORCENTAJE_DE_VENTAS" (columns view) = [ip].
Proof.
  intros Hload Hview.
  destruct (loaded_inv _ _ Hload) as (raw & p & _ & HL & Hcols & _).
  destruct (filtered_rows_incl _ _ _ Hview) as [Hc _].
  destruct HL as (Hu & Hve & Hp & Hs & _).
  assert (Hpos : forall name i, name <> "VENDEDOR" ->
                   positions name (columns (clean_columns raw)) = [i] ->
                   positions name (columns view) = [i]).
  { intros name i Hne Hi. now rewrite Hc, Hcols, positions_with_vendedor. }
  split.
  - intros c Hin. apply (loaded_labels_not_displayed csv df c Hload).
    now rewrite <- Hc.
  - exists (at_salario p), (at_unidades p), (at_ventas p), (at_porcentaje p).
    split; [apply (Hpos "SALARIO"); [discriminate | exact Hs]|].
    split; [apply (Hpos "UNIDADES_VENDIDAS"); [discriminate | exact Hu]|].
    split; [apply (Hpos "VENTAS_TOTALES"); [discriminate | exact Hve]|].
    apply (Hpos "PORCENTAJE_DE_VENTAS"); [discriminate | exact Hp].
Qed.

(** X11.  In a view of a loaded table that has one REGION, one ID and one
    VENDEDOR column, the table tab shows a frame of the seven display labels
    in the order of [columns_to_display]; it has one row for each row of the
    view, in the order of the view, holding the cells of that row under the
    seven columns; every other column of the file is left out. *)
Theorem df_display_projects_the_view
        {py : Builtins} (csv : result DataFrame) (df view : DataFrame)
        (selected_regions : list cell) (ir iid jv : nat) :
  load_data csv = ([], df) ->
  df_filtered_region df selected_regions = Ok view ->
  locate view "REGION" = Ok ir ->
  locate view "ID" = Ok iid ->
  locate view "VENDEDOR" = Ok jv ->
  exists isal iu iv ip,
    locate view "SALARIO" = Ok isal /\
    locate view "UNIDADES_VENDIDAS" = Ok iu /\
    locate view "VENTAS_TOTALES" = Ok iv /\
    locate view "PORCENTAJE_DE_VENTAS" = Ok ip /\
    df_display view
    = Ok {| columns := ["Región"; "Nombre Completo"; "ID Vendedor";
                        "Salario (USD)"; "Unidades Vendidas";
                        "Ventas Totales (USD)"; "Porcentaje de Ventas"];
            rows := map (project [ir; jv; iid; isal; iu; iv; ip]) (rows view) |}.
Proof.
  intros Hload Hview Hr Hid Hv.
  destruct (loaded_view_layout csv df view selected_regions Hload Hview)
    as (Hclean & isal & iu & iv & ip & Hs & Hu & Hve & Hp).
  apply find_column_inv in Hr, Hid, Hv.
  exists isal, iu, iv, ip.
  split; [now apply find_column_ok|]. split; [now apply find_column_ok|].
  split; [now apply find_column_ok|]. split; [now apply find_column_ok|].
  now apply df_display_located.
Qed.

(** X11, witness: the table of the three sellers of the north. *)
Lemma df_display_projects_the_view_witness :
  exists shown,
    df_display (snd (load_data (py := Sample.py) (Ok Example.norte))) = Ok shown /\
    List.length (rows shown) = 3.
Proof.
  destruct (df_display_projects_the_view (py := Sample.py)
              (Ok Example.norte) _ _ [Str "TODAS"] 3 0 8
              ltac:(vm_compute; reflexivity) ltac:(vm_compute; reflexivity)
              ltac:(vm_compute; reflexivity) ltac:(vm_compute; reflexivity)
              ltac:(vm_compute; reflexivity))
    as (isal & iu & iv & ip & _ & _ & _ & _ & Hshow).
  eexists. split; [exact Hshow|]. vm_compute. reflexivity.
Defined.


(** ** A selection that matches no row *)

(** X12.  When the chosen regions are not 'TODAS' and match no row of a
    loaded table that has one REGION, one ID and one VENDEDOR column (the
    cleared multiselect is the case at hand), the view has no rows and what
    the tabs derive from it is computed without an exception: the aggregate
    by region and the ranking have no rows, the selectbox offers its
    placeholder only, the number of sellers is 0, and the table tab shows
    the seven labels over no rows. *)
Theorem unmatched_selection_empties_every_tab
        {py : Builtins} (csv : result DataFrame) (df : DataFrame)
        (selected_regions : list cell) (ir iid jv : nat) :
  load_data csv = ([], df) ->
  locate df "REGION" = Ok ir ->
  locate df "ID" = Ok iid ->
  locate df "VENDEDOR" = Ok jv ->
  isin (Str "TODAS") selected_regions = false ->
  (forall r, In r (rows df) -> isin (cell_at ir r) selected_regions = false) ->
  exists view,
    df_filtered_region df selected_regions = Ok view /\
    rows view = [] /\
    df_grouped_region view
    = Ok {| columns := ["REGION"; "Total_Unidades"; "Total_Ventas";
                        "Promedio_Porcentaje"];
            rows := [] |} /\
    df_top_sellers view = Ok {| columns := columns df; rows := [] |} /\
    seller_options view = Ok [Str "Selecciona un vendedor..."] /\
    num_vendedores view = Ok 0 /\
    df_display view
    = Ok {| columns := ["Región"; "Nombre Completo"; "ID Vendedor";
                        "Salario (USD)"; "Unidades Vendidas";
                        "Ventas Totales (USD)"; "Porcentaje de Ventas"];
            rows := [] |}.
Proof.
  intros Hload Hr Hid Hv Hall Hnone.
  pose proof (df_filtered_region_some df selected_regions ir Hall Hr) as Hview.
  rewrite filter_none in Hview by (now apply Forall_forall).
  set (view := {| columns := columns df; rows := [] |}) in *.
  destruct (loaded_view_layout csv df view selected_regions Hload Hview)
    as (Hclean & isal & iu & iv & ip & Hs & Hu & Hve & Hp).
  apply find_column_inv in Hr, Hid, Hv.
  assert (Lr : locate view "REGION" = Ok ir) by (now apply find_column_ok).
  assert (Lid : locate view "ID" = Ok iid) by (now apply find_column_ok).
  assert (Lv : locate view "VENDEDOR" = Ok jv) by (now apply find_column_ok).
  assert (Lu : locate view "UNIDADES_VENDIDAS" = Ok iu) by (now apply find_column_ok).
  assert (Lve : locate view "VENTAS_TOTALES" = Ok iv) by (now apply find_column_ok).
  assert (Lp : locate view "PORCENTAJE_DE_VENTAS" = Ok ip) by (now apply find_column_ok).
  exists view. split; [exact Hview|]. split; [reflexivity|].
  split; [|split; [|split; [|split]]].
  - rewrite (df_grouped_region_loaded view ir iu iv ip Lr Lu Lve Lp);
      [reflexivity | constructor ..].
  - unfold df_top_sellers, top_sellers.
    rewrite (sort_values_desc_numeric view _ ip Lp); [reflexivity | constructor].
  - unfold seller_options, all_sellers.
    rewrite (locate_getitem _ _ _ Lv). reflexivity.
  - unfold num_vendedores. rewrite (locate_getitem _ _ _ Lid). reflexivity.
  - now rewrite (df_display_located view ir jv iid isal iu iv ip).
Qed.

(** X12, witness: the cleared multiselect on the table of the north. *)
Lemma unmatched_selection_empties_every_tab_witness :
  exists view,
    df_filtered_region (snd (load_data (py := Sample.py) (Ok Example.norte))) []
    = Ok view /\
    rows view = [].
Proof.
  destruct (unmatched_selection_empties_every_tab (py := Sample.py)
              (Ok Example.norte) _ [] 3 0 8
              ltac:(vm_compute; reflexivity) ltac:(vm_compute; reflexivity)
              ltac:(vm_compute; reflexivity) ltac:(vm_compute; reflexivity)
              eq_refl (fun r _ => eq_refl))
    as (view & Hview & Hrows & _).
  exists view. split; [exact Hview | exact Hrows].
Defined.
